(** * anki_flow: the AnkiConnect upload tool and the review workflow

    A shallow embedding of
      - [anki_flow/crews/tools/custom_tool.py] (class [AnkiConnectAddNotesTool]);
      - [anki_flow/main.py] (the snapshot file, [upload_only], [AnkiFlow]).

    Python values that travel as JSON are values of [json]; functions that
    can raise return a [py_result]; the HTTP service, standard input, the
    card generator and the file system are explicit arguments. *)

From Stdlib Require Import ZArith Ascii String DecimalString.
From stdpp Require Import base option list strings gmap sorting.

Set Warnings "-register-all".
Local Open Scope string_scope.

(** ** Python values *)

(** What [json.loads] / [response.json()] can return.  Numbers are the
    integers (floats are left out); a string is its UTF-8 text; a dict is
    its list of items in insertion order, looked up from the front. *)
Inductive json : Type :=
| JNull
| JBool (b : bool)
| JInt (z : Z)
| JStr (s : string)
| JList (l : list json)
| JDict (d : list (string * json)).

Definition dict := list (string * json).

(** The exceptions the modelled code can raise or let through. *)
Inductive py_exn : Type :=
| TypeError
| AttributeError (msg : string)
| ValueError (msg : string)
| EOFError.

Inductive py_result (A : Type) : Type :=
| Ret (a : A)
| Raise (e : py_exn).
Arguments Ret {A} a.
Arguments Raise {A} e.

Module Py.

(** [bool(v)] *)
Definition truthy (v : json) : bool :=
  match v with
  | JNull => false
  | JBool b => b
  | JInt z => negb (Z.eqb z 0)
  | JStr s => negb (String.eqb s "")
  | JList l => match l with [] => false | _ => true end
  | JDict d => match d with [] => false | _ => true end
  end.

(** [if s:] for [s : Optional[str]] *)
Definition truthy_opt (o : option string) : bool :=
  match o with
  | None => false
  | Some s => negb (String.eqb s "")
  end.

(** [a or b] *)
Definition or_ (a b : json) : json := if truthy a then a else b.

(** [d.get(k)] as an option: the first item with key [k]. *)
Fixpoint lookup (k : string) (d : dict) : option json :=
  match d with
  | [] => None
  | (k', v) :: d' => if String.eqb k k' then Some v else lookup k d'
  end.

(** [d.get(k, dflt)] *)
Definition get_default (k : string) (dflt : json) (d : dict) : json :=
  match lookup k d with Some v => v | None => dflt end.

(** [d.get(k)] *)
Definition get (k : string) (d : dict) : json := get_default k JNull d.

(** [k in d] for a dict [d] *)
Definition has_key (k : string) (d : dict) : bool :=
  match lookup k d with Some _ => true | None => false end.

(** [v == s] for a string [s] *)
Definition is_str (s : string) (v : json) : bool :=
  match v with JStr t => String.eqb s t | _ => false end.

Fixpoint prefix (p s : string) : bool :=
  match p, s with
  | EmptyString, _ => true
  | String a p', String b s' => Ascii.eqb a b && prefix p' s'
  | String _ _, EmptyString => false
  end.

(** [p in s] for two strings. *)
Fixpoint substring_of (p s : string) : bool :=
  prefix p s ||
  match s with
  | EmptyString => false
  | String _ s' => substring_of p s'
  end.

(** [s in v]: key test on a dict, element test on a list, substring test
    on a string, [TypeError] on the values that are not containers. *)
Definition contains (s : string) (v : json) : py_result bool :=
  match v with
  | JDict d => Ret (has_key s d)
  | JList l => Ret (existsb (is_str s) l)
  | JStr t => Ret (substring_of s t)
  | JNull | JBool _ | JInt _ => Raise TypeError
  end.

(** [isinstance(v, list)] *)
Definition is_list (v : json) : bool :=
  match v with JList _ => true | _ => false end.

(** Lists and dicts are unhashable. *)
Definition hashable (v : json) : bool :=
  match v with JList _ | JDict _ => false | _ => true end.

Fixpoint chars (s : string) : list json :=
  match s with
  | EmptyString => []
  | String a r => JStr (String a EmptyString) :: chars r
  end.

(** The elements [set(v)] is built from; [TypeError] when [v] is not
    iterable or one of its elements is unhashable. *)
Definition set_elements (v : json) : py_result (list json) :=
  match v with
  | JList l => if forallb hashable l then Ret l else Raise TypeError
  | JDict d => Ret (map (fun kv => JStr (fst kv)) d)
  | JStr s => Ret (chars s)
  | JNull | JBool _ | JInt _ => Raise TypeError
  end.

(** [type(v).__name__] *)
Definition type_name (v : json) : string :=
  match v with
  | JNull => "NoneType"
  | JBool _ => "bool"
  | JInt _ => "int"
  | JStr _ => "str"
  | JList _ => "list"
  | JDict _ => "dict"
  end.

(** The message of the [AttributeError] for [v.attr]. *)
Definition no_attribute_msg (v : json) (attr : string) : string :=
  "'" +:+ type_name v +:+ "' object has no attribute '" +:+ attr +:+ "'".

Definition no_attribute (v : json) (attr : string) : py_exn :=
  AttributeError (no_attribute_msg v attr).

(** [str.isspace] on the ASCII range: tab to carriage return, the four
    separators 28..31 and the space.  Whitespace outside ASCII is not
    recognised. *)
Definition isspace (a : ascii) : bool :=
  let n := nat_of_ascii a in
  (Nat.leb 9 n && Nat.leb n 13) || (Nat.leb 28 n && Nat.leb n 32).

Fixpoint lstrip (s : string) : string :=
  match s with
  | EmptyString => EmptyString
  | String a r => if isspace a then lstrip r else s
  end.

Fixpoint rstrip (s : string) : string :=
  match s with
  | EmptyString => EmptyString
  | String a r =>
      let r' := rstrip r in
      if isspace a && String.eqb r' "" then EmptyString else String a r'
  end.

(** [s.strip()] *)
Definition strip (s : string) : string := rstrip (lstrip s).

Definition lower_ascii (a : ascii) : ascii :=
  let n := nat_of_ascii a in
  if Nat.leb 65 n && Nat.leb n 90 then ascii_of_nat (n + 32) else a.

(** [s.lower()] on the ASCII range. *)
Fixpoint lower (s : string) : string :=
  match s with
  | EmptyString => EmptyString
  | String a r => String (lower_ascii a) (lower r)
  end.

Definition str_of_nat (n : nat) : string :=
  NilZero.string_of_uint (Nat.to_uint n).

Fixpoint join (sep : string) (l : list string) : string :=
  match l with
  | [] => ""
  | [x] => x
  | x :: r => x +:+ sep +:+ join sep r
  end.

(** [str(l)] for a list of non-negative ints. *)
Definition str_of_nat_list (l : list nat) : string :=
  "[" +:+ join ", " (map str_of_nat l) +:+ "]".

(** [posixpath.join(a, b)] *)
Definition path_join (a b : string) : string :=
  if prefix "/" b then b
  else if String.eqb a "" || String.eqb (substring (String.length a - 1) 1 a) "/"
       then a +:+ b
       else a +:+ "/" +:+ b.

End Py.

(** ** State and exceptions

    [SE S A]: a computation over a state [S] that returns an [A] or raises;
    the state reached is kept in both cases. *)
Definition SE (S A : Type) : Type := S -> py_result A * S.

Definition ret {S A} (a : A) : SE S A := fun s => (Ret a, s).

Definition raise {S A} (e : py_exn) : SE S A := fun s => (Raise e, s).

Definition bind {S A B} (c : SE S A) (k : A -> SE S B) : SE S B :=
  fun s =>
    match c s with
    | (Ret a, s') => k a s'
    | (Raise e, s') => (Raise e, s')
    end.

Definition lift {S A} (r : py_result A) : SE S A := fun s => (r, s).

Notation "x <- c ;; k" := (bind c (fun x => k))
  (at level 100, c at next level, right associativity).
Notation "c ;;; k" := (bind c (fun _ => k))
  (at level 100, right associativity).

(** ** custom_tool.py: AnkiConnectAddNotesTool *)

Module Tool.

(** What [requests.post(...)], [raise_for_status()] and [response.json()]
    amount to, seen from the handlers of [_request]; [e] is [str] of the
    exception. *)
Inductive outcome : Type :=
| Responded (data : json)         (* a 2xx answer with a JSON body *)
| ConnectionError (e : string)    (* first handler; a connect timeout is one too *)
| Timeout (e : string)            (* second handler: a timeout that is no connection error *)
| RequestException (e : string).  (* third handler: HTTP status, undecodable body, ... *)

(** One POST: the URL and the JSON body. *)
Definition post : Type := string * json.

Definition service : Type := string -> json -> outcome.

(** [json={"action": action, "version": 6, "params": params}] *)
Definition body (action : string) (params : json) : json :=
  JDict [("action", JStr action); ("version", JInt 6); ("params", params)].

Definition action_of (p : post) : json :=
  match snd p with
  | JDict d => Py.get "action" d
  | _ => JNull
  end.

Definition is_action (a : string) (p : post) : bool :=
  Py.is_str a (action_of p).

(** Computations that talk to the service: the list of POSTs made so far
    is threaded through, oldest first. *)
Definition Client (A : Type) : Type := SE (list post) A.

Definition default_model_name : string := "Basic".
Definition default_anki_connect_url : string := "http://127.0.0.1:8765".

Section Run.

(** [str(v)] of a value that is not a string is left to the runtime. *)
Variable py_repr : json -> string.
(** The order in which the set [{"Front", "Back"}] prints (it depends
    on the run's string hashing). *)
Variable front_first : bool.
Variable svc : service.

Definition py_str (v : json) : string :=
  match v with JStr s => s | _ => py_repr v end.

Definition connection_message (url e : string) : string :=
  "Failed to connect to AnkiConnect at " +:+ url +:+
  ". Make sure Anki is running with AnkiConnect add-on enabled. Original error: "
  +:+ e.

Definition timeout_message (url e : string) : string :=
  "Timeout connecting to AnkiConnect at " +:+ url +:+
  ". Anki might be slow to respond. Original error: " +:+ e.

Definition _request (url action : string) (params : json)
  : Client (json * option string) :=
  fun log =>
    let log' := (log ++ [(url, body action params)])%list in
    match svc url (body action params) with
    | Responded data =>
        match data with
        | JDict d =>
            if Py.truthy (Py.get "error" d)
            then (Ret (JNull, Some (py_str (Py.get "error" d))), log')
            else (Ret (Py.get "result" d, None), log')
        | _ => (Raise (Py.no_attribute data "get"), log')
        end
    | ConnectionError e => (Ret (JNull, Some (connection_message url e)), log')
    | Timeout e => (Ret (JNull, Some (timeout_message url e)), log')
    | RequestException e =>
        (Ret (JNull, Some ("Request failed: " +:+ e)), log')
    end.

Definition _ensure_deck (url deck_name : string) : Client (option string) :=
  r <- _request url "createDeck" (JDict [("deck", JStr deck_name)]) ;;
  let '(_, err) := r in
  ret err.

Definition needed_str : string :=
  if front_first then "{'Front', 'Back'}" else "{'Back', 'Front'}".

Definition _ensure_model_fields (url model_name : string)
  : Client (bool * option string) :=
  r <- _request url "modelFieldNames" (JDict [("modelName", JStr model_name)]) ;;
  let '(result, err) := r in
  if Py.truthy_opt err then ret (false, err)
  else if negb (Py.truthy result) || negb (Py.is_list result)
  then ret (false, Some "Invalid response for model field names")
  else
    elems <- lift (Py.set_elements result) ;;
    if existsb (Py.is_str "Front") elems && existsb (Py.is_str "Back") elems
    then ret (true, None)
    else ret (false,
              Some ("Model '" +:+ model_name +:+ "' missing required fields "
                    +:+ needed_str)).

(** [fields] of the validation loop. *)
Definition validation_fields (n : dict) : json :=
  Py.or_ (Py.get "fields" n)
         (JDict [("Front", Py.get "Front" n); ("Back", Py.get "Back" n)]).

(** [not fields or "Front" not in fields or "Back" not in fields] *)
Definition is_invalid (n : dict) : py_result bool :=
  let fields := validation_fields n in
  if negb (Py.truthy fields) then Ret true
  else
    match Py.contains "Front" fields with
    | Raise e => Raise e
    | Ret false => Ret true
    | Ret true =>
        match Py.contains "Back" fields with
        | Raise e => Raise e
        | Ret b => Ret (negb b)
        end
    end.

(** The validation loop, from index [idx] on, appending to [acc]. *)
Fixpoint invalid_indices_from (idx : nat) (notes : list dict) (acc : list nat)
  : py_result (list nat) :=
  match notes with
  | [] => Ret acc
  | n :: rest =>
      match is_invalid n with
      | Raise e => Raise e
      | Ret b => invalid_indices_from (S idx) rest (if b then (acc ++ [idx])%list else acc)
      end
  end.

(** [fields] of the loop that builds [prepared_notes]. *)
Definition prepared_fields (n : dict) : json :=
  Py.or_ (Py.get "fields" n)
         (JDict [("Front", Py.get_default "Front" (JStr "") n);
                 ("Back", Py.get_default "Back" (JStr "") n)]).

Definition prepared_note (deck_name model_name : string) (n : dict) : json :=
  JDict [("deckName", JStr deck_name);
         ("modelName", JStr model_name);
         ("fields", prepared_fields n);
         ("options", JDict [("allowDuplicate", JBool false)]);
         ("tags", Py.get_default "tags" (JList []) n)].

Definition prepared_notes (deck_name model_name : string) (notes : list dict)
  : list json :=
  map (prepared_note deck_name model_name) notes.

Definition error_doc (msg : string) : json := JDict [("error", JStr msg)].

Definition is_nil {A} (l : list A) : bool :=
  match l with [] => true | _ => false end.

(** [_run]; the result is the document handed to [json.dumps].  The
    [except requests.RequestException] around the body catches nothing:
    [_request] has caught these already, and the other exceptions are
    not of that class. *)
Definition _run (deck_name model_name : string) (notes : option (list dict))
           (anki_connect_url : string) : Client json :=
  let notes := default [] notes in
  invalid_indices <- lift (invalid_indices_from 0 notes []) ;;
  if negb (is_nil invalid_indices)
  then ret (error_doc ("Invalid notes at indices: "
                       +:+ Py.str_of_nat_list invalid_indices
                       +:+ ". Each needs Front and Back."))
  else if negb (Py.truthy (JStr (Py.strip deck_name)))
  then ret (error_doc "deck_name is required")
  else
    err <- _ensure_deck anki_connect_url deck_name ;;
    if Py.truthy_opt err
    then ret (error_doc ("Failed to ensure deck: " +:+ default "" err))
    else
      r <- _ensure_model_fields anki_connect_url model_name ;;
      let '(ok, err) := r in
      if negb ok
      then ret (JDict [("error", from_option JStr JNull err)])
      else
        r <- _request anki_connect_url "addNotes"
               (JDict [("notes", JList (prepared_notes deck_name model_name notes))]) ;;
        let '(result, err) := r in
        if Py.truthy_opt err
        then ret (JDict [("error", from_option JStr JNull err)])
        else ret (JDict [("result", result)]).

(** The three POSTs [_run] can make. *)
Definition createDeck_post (url deck_name : string) : post :=
  (url, body "createDeck" (JDict [("deck", JStr deck_name)])).

Definition modelFieldNames_post (url model_name : string) : post :=
  (url, body "modelFieldNames" (JDict [("modelName", JStr model_name)])).

Definition addNotes_post (url deck_name model_name : string) (notes : list dict) : post :=
  (url, body "addNotes"
             (JDict [("notes", JList (prepared_notes deck_name model_name notes))])).

(** No POST of [log] is an [addNotes] request. *)
Definition no_addNotes (log : list post) : bool :=
  forallb (fun p => negb (is_action "addNotes" p)) log.

(** [_ensure_deck] reports an error. *)
Definition deck_creation_fails (url deck_name : string) : bool :=
  match fst (_ensure_deck url deck_name []) with
  | Ret err => Py.truthy_opt err
  | Raise _ => true
  end.

(** [_ensure_model_fields] does not return [ok]. *)
Definition schema_validation_fails (url model_name : string) : bool :=
  match fst (_ensure_model_fields url model_name []) with
  | Ret (ok, _) => negb ok
  | Raise _ => true
  end.

(** Both required names are in the field map the validation loop
    looks at. *)
Definition has_front_back (n : dict) : Prop :=
  Py.contains "Front" (validation_fields n) = Ret true /\
  Py.contains "Back" (validation_fields n) = Ret true.

(** The indices, counted from [idx], at which [bs] is true. *)
Fixpoint flagged (idx : nat) (bs : list bool) : list nat :=
  match bs with
  | [] => []
  | b :: rest => ((if b then [idx] else []) ++ flagged (S idx) rest)%list
  end.

End Run.

End Tool.

(** ** main.py: the snapshot file, upload_only and AnkiFlow *)

Module Flow.

Record AnkiState : Type := mkState {
  deck_name : option string;
  flashcards : option (list json);
  approved : bool;
}.

(** The field defaults of [AnkiState]. *)
Definition AnkiState_default : AnkiState :=
  {| deck_name := None; flashcards := None; approved := false |}.

(** What a file holds, seen from [json.load]: text that decodes to [doc],
    or text the decoder rejects with the message [msg].  [json.dump]
    writes text that decodes to the document it was given. *)
Inductive file : Type :=
| Document (doc : json)
| Malformed (msg : string).

(** What a run does to its surroundings, in order. *)
Inductive event : Type :=
| Print (s : string)
| Input (prompt answer : string)
| Generate (deck : option string)
| WriteFile (path : string)
| Upload (deck : option string) (notes : list json).

Record world : Type := mkWorld {
  state : AnkiState;                (* [self.state] *)
  name_of_deck : option string;     (* [self.name_of_deck] *)
  fs : gmap string file;
  stdin : list string;              (* the lines [input] will return *)
  gen_calls : nat;                  (* calls of [_run_generate_flashcards] so far *)
  out : list event;                 (* newest first *)
}.

Definition Proc (A : Type) : Type := SE world A.

Definition with_state (f : AnkiState -> AnkiState) (w : world) : world :=
  {| state := f (state w); name_of_deck := name_of_deck w; fs := fs w;
     stdin := stdin w; gen_calls := gen_calls w; out := out w |}.

Definition emit (e : event) (w : world) : world :=
  {| state := state w; name_of_deck := name_of_deck w; fs := fs w;
     stdin := stdin w; gen_calls := gen_calls w; out := e :: out w |}.

Definition set_deck_name (v : option string) : Proc unit :=
  fun w => (Ret tt, with_state (fun s => {| deck_name := v; flashcards := flashcards s;
                                           approved := approved s |}) w).

Definition set_flashcards (v : option (list json)) : Proc unit :=
  fun w => (Ret tt, with_state (fun s => {| deck_name := deck_name s; flashcards := v;
                                           approved := approved s |}) w).

Definition set_approved (v : bool) : Proc unit :=
  fun w => (Ret tt, with_state (fun s => {| deck_name := deck_name s;
                                           flashcards := flashcards s;
                                           approved := v |}) w).

Definition set_name_of_deck (v : string) : Proc unit :=
  fun w => (Ret tt, {| state := state w; name_of_deck := Some v; fs := fs w;
                       stdin := stdin w; gen_calls := gen_calls w; out := out w |}).

Definition get_state : Proc AnkiState := fun w => (Ret (state w), w).

Definition get_name_of_deck : Proc (option string) := fun w => (Ret (name_of_deck w), w).

Definition print (s : string) : Proc unit := fun w => (Ret tt, emit (Print s) w).

(** [input(prompt)]: the next line, [EOFError] when there is none. *)
Definition input (prompt : string) : Proc string :=
  fun w =>
    match stdin w with
    | [] => (Raise EOFError, w)
    | a :: rest =>
        (Ret a, {| state := state w; name_of_deck := name_of_deck w; fs := fs w;
                   stdin := rest; gen_calls := gen_calls w;
                   out := Input prompt a :: out w |})
    end.

(** [open(path, "w")] and [json.dump(doc, f)] *)
Definition write_json (path : string) (doc : json) : Proc unit :=
  fun w => (Ret tt, {| state := state w; name_of_deck := name_of_deck w;
                       fs := <[path := Document doc]> (fs w);
                       stdin := stdin w; gen_calls := gen_calls w;
                       out := WriteFile path :: out w |}).

Definition read_file (path : string) : Proc (option file) :=
  fun w => (Ret (fs w !! path), w).

(** [str(v)] for [v : str | None] *)
Definition str_of_opt (o : option string) : string :=
  match o with Some s => s | None => "None" end.

(** [v.get(k)] for a value that should be a dict. *)
Definition get_of (v : json) (k : string) : py_result json :=
  match v with
  | JDict d => Ret (Py.get k d)
  | _ => Raise (Py.no_attribute v "get")
  end.

Definition review_prompt : string := "Check flashcards. Do you approve them? (y/n) ".

Definition wrong_answer : string :=
  "Wrong answer. Type either 'y' to accept or 'n' to generate a new set of flashcards.".

Definition no_flashcards : string :=
  "No flashcards to upload. Please add notes to the notes_folder and try again.".

Definition format_error : string :=
  "Invalid flashcards.json format: 'flashcards' must be a list.".

Definition not_found : string :=
  "flashcards.json not found in anki_flow/flashcards directory. Generate flashcards first.".

(** The places of [AnkiFlow] where control rests between two blocks. *)
Inductive pc : Type :=
| AtInit              (* [__init__]: top of the deck-name loop *)
| AtDeckNameInput     (* [deck_name_input], the start step *)
| AtGenerate          (* [generate_and_review]: top of the outer loop *)
| AtReview            (* [generate_and_review]: top of the inner loop *)
| AtSendToAnki        (* [send_to_anki] *)
| Finished
| Crashed (e : py_exn).

Section Main.

(** The application root: three [dirname]s up from [__file__]. *)
Variable base_dir : string.
(** [str(v)] of a value that is not a string. *)
Variable py_repr : json -> string.
(** The [n]-th call of [_run_generate_flashcards(deck)]: the parsed
    list, or the exception it ends with. *)
Variable generator : nat -> option string -> py_result (list json).
(** What [_upload_to_anki(deck, notes)] returns: the crew's parsed
    answer, or the dict it builds when that does not parse. *)
Variable uploader : option string -> list json -> json.

Definition py_str (v : json) : string :=
  match v with JStr s => s | _ => py_repr v end.

Definition default_path : string :=
  Py.path_join (Py.path_join base_dir "flashcards") "flashcards.json".

Definition _save_flashcards_to_file (cards : list json) (path : option string)
  : Proc unit :=
  let path := match path with None => default_path | Some p => p end in
  write_json path (JDict [("flashcards", JList cards)]).

Definition _run_generate_flashcards (deck : option string) : Proc (list json) :=
  fun w =>
    (generator (gen_calls w) deck,
     {| state := state w; name_of_deck := name_of_deck w; fs := fs w;
        stdin := stdin w; gen_calls := S (gen_calls w);
        out := Generate deck :: out w |}).

Definition _upload_to_anki (deck : option string) (notes : list json) : Proc json :=
  fun w => (Ret (uploader deck notes), emit (Upload deck notes) w).

(** [result.get("error")] and the two final messages. *)
Definition report_upload (result : json) : Proc unit :=
  e <- lift (get_of result "error") ;;
  if Py.truthy e
  then print ("Upload failed: " +:+ py_str e)
  else print "Upload completed.".

(** The [try] block of [upload_only] with its two handlers:
    [inl notes] when the snapshot loads, [inr msg] with the line the
    handler prints when it does not ([FileNotFoundError], or any other
    exception [exc], printed after "Failed to read flashcards.json: "). *)
Definition load_flashcards : Proc (list json + string) :=
  f <- read_file (Py.path_join (Py.path_join base_dir "flashcards") "flashcards.json") ;;
  match f with
  | None => ret (inr not_found)
  | Some (Malformed msg) => ret (inr ("Failed to read flashcards.json: " +:+ msg))
  | Some (Document (JDict d)) =>
      match Py.get "flashcards" d with
      | JList notes => ret (inl notes)
      | _ => ret (inr ("Failed to read flashcards.json: " +:+ format_error))
      end
  | Some (Document data) =>
      ret (inr ("Failed to read flashcards.json: " +:+ Py.no_attribute_msg data "get"))
  end.

Definition upload_only : Proc unit :=
  print "========================" ;;;
  print "ANKI UPLOAD ONLY" ;;;
  print "========================" ;;;
  deck <- input "Enter deck name: " ;;
  print ("✓ Deck name set to: " +:+ deck) ;;;
  print "========================" ;;;
  r <- load_flashcards ;;
  match r with
  | inr msg => print msg
  | inl notes =>
      result <- _upload_to_anki (Some deck) notes ;;
      report_upload result
  end.

(** [AnkiFlow.__init__]: one turn of its loop; [block] repeats it for as
    long as it leads back to [AtInit]. *)
Definition __init__ : Proc pc :=
  name <- input "Enter name of deck: " ;;
  if Py.truthy (JStr name)
  then set_name_of_deck name ;;; ret AtDeckNameInput
  else print "Please type a name for the deck." ;;; ret AtInit.

Definition deck_name_input : Proc unit :=
  name <- get_name_of_deck ;;
  set_deck_name name ;;;
  st <- get_state ;;
  print ("✓ Deck name set to: " +:+ str_of_opt (deck_name st)).

(** [generate_and_review]: the body of the outer loop, up to the inner
    [while]. *)
Definition generate_and_review_outer : Proc pc :=
  print "Generating flashcards from notes..." ;;;
  st <- get_state ;;
  cards <- _run_generate_flashcards (deck_name st) ;;
  set_flashcards (Some cards) ;;;
  _save_flashcards_to_file cards None ;;;
  print "Flashcards saved to 'anki_flow/flashcards/flashcards.json'." ;;;
  ret AtReview.

(** [generate_and_review]: one turn of the inner loop.  [return] leads to
    the listener [send_to_anki], [break] back to the outer loop, and
    falling through to the next turn. *)
Definition generate_and_review_inner : Proc pc :=
  line <- input review_prompt ;;
  let answer := Py.lower (Py.strip line) in
  if String.eqb answer "y"
  then set_approved true ;;; ret AtSendToAnki
  else if String.eqb answer "n"
  then print "Regenerating flashcards..." ;;; ret AtGenerate
  else print wrong_answer ;;; ret AtReview.

Definition send_to_anki : Proc unit :=
  st <- get_state ;;
  if negb (approved st) then ret tt
  else
    match flashcards st with
    | None | Some [] => print no_flashcards
    | Some cards =>
        print "Uploading flashcards to Anki..." ;;;
        result <- _upload_to_anki (deck_name st) cards ;;
        report_upload result
    end.

(** The block that runs from each place, and the place it leads to:
    [kickoff] builds the flow ([__init__]), runs the start step, and
    each listener after the step it listens to. *)
Definition block (p : pc) : Proc pc :=
  match p with
  | AtInit => __init__
  | AtDeckNameInput => deck_name_input ;;; ret AtGenerate
  | AtGenerate => generate_and_review_outer
  | AtReview => generate_and_review_inner
  | AtSendToAnki => send_to_anki ;;; ret Finished
  | Finished => ret Finished
  | Crashed e => ret (Crashed e)
  end.

Definition step (c : pc * world) : pc * world :=
  match block (fst c) (snd c) with
  | (Ret p, w) => (p, w)
  | (Raise e, w) => (Crashed e, w)
  end.

(** [n] blocks on from [c]. *)
Fixpoint run (n : nat) (c : pc * world) : pc * world :=
  match n with
  | O => c
  | S n' => step (run n' c)
  end.

(** [kickoff()] on a fresh process. *)
Definition initial (files : gmap string file) (lines : list string) : pc * world :=
  (AtInit, {| state := AnkiState_default; name_of_deck := None; fs := files;
              stdin := lines; gen_calls := 0; out := [] |}).

(** What holds of the state whenever control rests at a place. *)
Definition inv (c : pc * world) : Prop :=
  let w := snd c in
  match fst c with
  | AtInit => state w = AnkiState_default /\ gen_calls w = 0
  | AtDeckNameInput =>
      state w = AnkiState_default /\ gen_calls w = 0 /\
      exists name, name_of_deck w = Some name
  | AtGenerate =>
      approved (state w) = false /\ exists name, deck_name (state w) = Some name
  | AtReview =>
      approved (state w) = false /\
      (exists name, deck_name (state w) = Some name) /\
      exists cs k,
        flashcards (state w) = Some cs /\
        fs w !! default_path = Some (Document (JDict [("flashcards", JList cs)])) /\
        gen_calls w = S k /\
        generator k (deck_name (state w)) = Ret cs
  | AtSendToAnki | Finished =>
      approved (state w) = true /\ exists name, deck_name (state w) = Some name
  | Crashed _ => True
  end.

(** The places visited by the first [n] steps from [c], [c]'s included. *)
Fixpoint visited (n : nat) (c : pc * world) : list pc :=
  match n with
  | O => [fst c]
  | S n' => fst c :: visited n' (step c)
  end.

End Main.

Definition is_upload (e : event) : bool :=
  match e with Upload _ _ => true | _ => false end.

Definition is_generate (e : event) : bool :=
  match e with Generate _ => true | _ => false end.

(** How many events of [evs] satisfy [f]. *)
Fixpoint count_events (f : event -> bool) (evs : list event) : nat :=
  match evs with
  | [] => 0
  | e :: rest => (if f e then 1 else 0) + count_events f rest
  end.

Definition at_send_to_anki (p : pc) : bool :=
  match p with AtSendToAnki => true | _ => false end.

Definition at_generate (p : pc) : bool :=
  match p with AtGenerate => true | _ => false end.

(** How many places of [ps] satisfy [f]. *)
Fixpoint count_places (f : pc -> bool) (ps : list pc) : nat :=
  match ps with
  | [] => 0
  | p :: rest => (if f p then 1 else 0) + count_places f rest
  end.

(** What [upload_only] has printed and read when it reaches its [try]. *)
Definition banner (deck : string) (o : list event) : list event :=
  Print "========================"
  :: Print ("✓ Deck name set to: " +:+ deck)
  :: Input "Enter deck name: " deck
  :: Print "========================"
  :: Print "ANKI UPLOAD ONLY"
  :: Print "========================" :: o.

(** The places from which nothing more runs. *)
Definition terminal (p : pc) : Prop := p = Finished \/ exists e, p = Crashed e.

(** [line.strip().lower()] *)
Definition answer_of (line : string) : string := Py.lower (Py.strip line).

(** How many of [lines] read n. *)
Fixpoint rejections (lines : list string) : nat :=
  match lines with
  | [] => 0
  | line :: rest =>
      (if String.eqb (answer_of line) "n" then 1 else 0) + rejections rest
  end.

(** What [k] empty answers to the deck-name prompt leave in the output,
    newest first, on top of [o]. *)
Fixpoint reprompts (k : nat) (o : list event) : list event :=
  match k with
  | O => o
  | S k' =>
      Print "Please type a name for the deck."
      :: Input "Enter name of deck: " "" :: reprompts k' o
  end.

(** A bound on the blocks still to run: two per line left to read, and
    what the place itself needs. *)
Definition weight (c : pc * world) : nat :=
  2 * length (stdin (snd c))
  + match fst c with
    | AtInit => 3
    | AtDeckNameInput => 4
    | AtGenerate => 3
    | AtReview => 2
    | AtSendToAnki => 1
    | Finished | Crashed _ => 0
    end.

(** The snapshot document for a card list. *)
Definition snapshot_of (cards : list json) : file :=
  Document (JDict [("flashcards", JList cards)]).

End Flow.

(** ** Statement helpers *)

(** Nothing but ASCII whitespace (the empty string included). *)
Fixpoint blank (s : string) : bool :=
  match s with
  | EmptyString => true
  | String a r => Py.isspace a && blank r
  end.

(** ** main.py: from the crews' raw output to Python values *)

Module Raw.

(** [s.find(c)] for a one-character [c]: the first index, if there is
    one.  The brackets looked for are ASCII, so an index into the UTF-8
    text cuts it where the index into the characters does. *)
Fixpoint find (c : ascii) (s : string) : option nat :=
  match s with
  | EmptyString => None
  | String a r => if Ascii.eqb a c then Some 0 else option_map S (find c r)
  end.

(** [s.rfind(c)]: the last index, if there is one. *)
Fixpoint rfind (c : ascii) (s : string) : option nat :=
  match s with
  | EmptyString => None
  | String a r =>
      match rfind c r with
      | Some j => Some (S j)
      | None => if Ascii.eqb a c then Some 0 else None
      end
  end.

(** [s[i:j]] for [i <= j] *)
Definition slice (i j : nat) (s : string) : string := substring i (j - i) s.

Definition parse_failed : string := "Failed to parse generated flashcards JSON.".

Definition not_an_array : string := "Generated output is not a JSON array of flashcards.".

(** The list test that ends [_run_generate_flashcards]: [isinstance(data,
    list)], applied to what the parse gave. *)
Definition as_list (r : py_result json) : py_result (list json) :=
  match r with
  | Ret (JList l) => Ret l
  | Ret _ => Raise (ValueError not_an_array)
  | Raise e => Raise e
  end.

Section Parse.

(** [json.loads]: the value, or the exception it raises. *)
Variable json_loads : string -> py_result json.

(** [_run_generate_flashcards] from [raw] on: the first parse, the
    bracket fallback of its handler, and the list test.  [raw] is the
    text of the crew's result. *)
Definition flashcards_of_raw (raw : string) : py_result (list json) :=
  let data :=
    match json_loads raw with
    | Ret v => Ret v
    | Raise _ =>
        match find "[" raw, rfind "]" raw with
        | Some start_idx, Some end_idx =>
            if Nat.ltb start_idx end_idx
            then json_loads (slice start_idx (end_idx + 1) raw)
            else Raise (ValueError parse_failed)
        | _, _ => Raise (ValueError parse_failed)
        end
    end in
  match data with
  | Ret (JList l) => Ret l
  | Ret _ => Raise (ValueError not_an_array)
  | Raise e => Raise e
  end.

(** [_run_generate_flashcards(deck_name)], [kickoff n deck] being what the
    [n]-th kick-off of the generation crew ends with: its raw text, or an
    exception. *)
Definition _run_generate_flashcards
           (kickoff : nat -> option string -> py_result string)
           (n : nat) (deck : option string) : py_result (list json) :=
  match kickoff n deck with
  | Ret raw => flashcards_of_raw raw
  | Raise e => Raise e
  end.

(** [_upload_to_anki] from [raw] on. *)
Definition upload_of_raw (raw : string) : json :=
  match json_loads raw with
  | Ret v => v
  | Raise _ => JDict [("error", JStr ("Unexpected upload response: " +:+ raw))]
  end.

(** [_upload_to_anki(deck_name, notes)], [kickoff deck notes] being the raw
    text the upload crew ends with. *)
Definition _upload_to_anki
           (kickoff : option string -> list json -> string)
           (deck : option string) (notes : list json) : json :=
  upload_of_raw (kickoff deck notes).

End Parse.

End Raw.

(** ** custom_tool.py: ReadMarkdownFolderTool *)

Module Markdown.

(** [file_path.read_text(encoding="utf-8")] *)
Inductive read : Type :=
| Text (s : string)
| Undecodable                  (* [UnicodeDecodeError] *)
| ReadError (e : string).      (* an [OSError], [e] its [str] *)

(** What the tool asks of the file system. *)
Record volume : Type := {
  isdir : string -> bool;
  (* [list(base.rglob("*.md"))] ([true]) or [list(base.glob("*.md"))]:
     the [str] of each path found, or the [OSError] raised *)
  md_files : bool -> string -> list string + string;
  read_text : string -> read;
  (* [read_text(encoding="utf-8", errors="ignore")] *)
  read_text_ignore : string -> string + string;
}.

Definition entry (path content : string) : json :=
  JDict [("path", JStr path); ("content", JStr content)].

(** The body of the loop: the entry for one file, or the [OSError] that
    ends the run. *)
Definition read_one (v : volume) (p : string) : json + string :=
  match read_text v p with
  | Text s => inl (entry p s)
  | Undecodable =>
      match read_text_ignore v p with
      | inl s => inl (entry p s)
      | inr e => inr e
      end
  | ReadError e => inr e
  end.

(** The loop over [md_files], appending to [results]. *)
Fixpoint read_all (v : volume) (files : list string) (results : list json)
  : list json + string :=
  match files with
  | [] => inl results
  | p :: rest =>
      match read_one v p with
      | inl e => read_all v rest (results ++ [e])%list
      | inr e => inr e
      end
  end.

(** [ReadMarkdownFolderTool._run]; the result is the value handed to
    [json.dumps].  [os.path.isabs] is the POSIX one. *)
Definition _run (v : volume) (folder_path : string) (recursive : bool) : json :=
  if negb (Py.prefix "/" folder_path)
  then JDict [("error", JStr "folder_path must be an absolute path")]
  else if negb (isdir v folder_path)
  then JDict [("error",
               JStr ("folder_path does not exist or is not a directory: "
                     +:+ folder_path))]
  else
    match md_files v recursive folder_path with
    | inr e => JDict [("error", JStr e)]
    | inl files =>
        match read_all v files [] with
        | inl results => JList results
        | inr e => JDict [("error", JStr e)]
        end
    end.

End Markdown.

(** ** Concrete surroundings used by the examples *)

Module Fixtures.

Import Tool.

Definition url : string := default_anki_connect_url.

(** [repr] is not exercised by the examples: they use string errors. *)
Definition repr (v : json) : string := "<" +:+ Py.type_name v +:+ ">".

Definition reply (result error : json) : outcome :=
  Responded (JDict [("result", result); ("error", error)]).

(** A service in good order whose "Basic" model has Front and Back. *)
Definition healthy : service :=
  fun _ b =>
    match b with
    | JDict d =>
        if Py.is_str "modelFieldNames" (Py.get "action" d)
        then reply (JList [JStr "Front"; JStr "Back"]) JNull
        else if Py.is_str "addNotes" (Py.get "action" d)
        then reply (JList [JInt 1700000000000]) JNull
        else reply (JInt 1) JNull
    | _ => RequestException "400 Client Error"
    end.

(** A service that answers every action with the error [msg]. *)
Definition failing (msg : json) : service := fun _ _ => reply JNull msg.

(** A service that takes the deck and the model and rejects the notes. *)
Definition rejecting : service :=
  fun _ b =>
    match b with
    | JDict d =>
        if Py.is_str "modelFieldNames" (Py.get "action" d)
        then reply (JList [JStr "Front"; JStr "Back"]) JNull
        else if Py.is_str "addNotes" (Py.get "action" d)
        then reply JNull (JStr "cannot create note because it is a duplicate")
        else reply (JInt 1) JNull
    | _ => RequestException "400 Client Error"
    end.

(** Nothing listens on the port. *)
Definition unreachable : service := fun _ _ => ConnectionError "Connection refused".

(** The application accepts the connection and never answers. *)
Definition slow : service := fun _ _ => Timeout "Read timed out.".

(** A service whose model has no field at all. *)
Definition fieldless : service :=
  fun _ b =>
    match b with
    | JDict d =>
        if Py.is_str "modelFieldNames" (Py.get "action" d)
        then reply (JList []) JNull
        else reply JNull JNull
    | _ => RequestException "400 Client Error"
    end.

Definition mitosis : dict :=
  [("Front", JStr "Mitosis");
   ("Back", JStr "Cell division producing two identical cells");
   ("tags", JList [JStr "bio"])].

(** A flat record with no Front. *)
Definition back_only : dict := [("Back", JStr "Cell division")].

(** A record with a fields map that has no Back. *)
Definition nested_front_only : dict := [("fields", JDict [("Front", JStr "Mitosis")])].

(** The application root. *)
Definition root : string := "/home/user/anki_flow".

Definition card (front back : string) (tags : list string) : json :=
  JDict [("Front", JStr front); ("Back", JStr back); ("tags", JList (map JStr tags))].

(** Cards with an empty tag list and text outside ASCII. *)
Definition cards : list json :=
  [card "Mitosis" "Cell division" ["bio"];
   card "Größe des Zellkerns?" "≈ 6 µm — 細胞核" []].

(** A generator that returns [n + 1] cards on its [n]-th call. *)
Definition generator (n : nat) (deck : option string) : py_result (list json) :=
  Ret (replicate (S n) (card "Mitosis" "Cell division" [])).

(** An upload that went through. *)
Definition uploader (deck : option string) (notes : list json) : json :=
  JDict [("result", JList (map (fun _ => JInt 1700000000000) notes))].

Definition fresh (lines : list string) : Flow.world :=
  {| Flow.state := Flow.AnkiState_default; Flow.name_of_deck := None;
     Flow.fs := ∅; Flow.stdin := lines; Flow.gen_calls := 0; Flow.out := [] |}.

(** Approved, and the generator had returned an empty list. *)
Definition approved_empty : Flow.world :=
  Flow.mkWorld (Flow.mkState (Some "Biology") (Some []) true) (Some "Biology") ∅ [] 1 [].

(** A record whose "fields" entry is a number. *)
Definition numbered_fields : dict := [("fields", JInt 5)].

(** A generator that succeeds once and then returns something that is
    not an array. *)
Definition flaky_generator (n : nat) (deck : option string) : py_result (list json) :=
  match n with
  | O => Ret [card "Mitosis" "Cell division" []]
  | S _ => Raise (ValueError Raw.not_an_array)
  end.

(** A stand-in for [json.loads] that knows three texts. *)
Definition loads (text : string) : py_result json :=
  if String.eqb text "[]" then Ret (JList [])
  else if String.eqb text "{}" then Ret (JDict [])
  else if String.eqb text "[null]" then Ret (JList [JNull])
  else Raise (ValueError "Expecting value: line 1 column 1 (char 0)").

(** An upload crew that answers in prose. *)
Definition chatty (deck : option string) (notes : list json) : string :=
  "All cards were uploaded.".

(** Approved, with cards. *)
Definition approved_cards : Flow.world :=
  Flow.mkWorld (Flow.mkState (Some "Biology") (Some cards) true) (Some "Biology") ∅ [] 1 [].

(** A folder with two notes, the second not valid UTF-8. *)
Definition notes_volume : Markdown.volume :=
  {| Markdown.isdir := fun p => String.eqb p "/notes";
     Markdown.md_files := fun _ p =>
       if String.eqb p "/notes" then inl ["/notes/a.md"; "/notes/b.md"]
       else inr "[Errno 2] No such file or directory";
     Markdown.read_text := fun p =>
       if String.eqb p "/notes/a.md" then Markdown.Text "# Mitosis"
       else Markdown.Undecodable;
     Markdown.read_text_ignore := fun p => inl "# Meiosis" |}.

(** The same folder with the second note unreadable. *)
Definition locked_volume : Markdown.volume :=
  {| Markdown.isdir := fun p => String.eqb p "/notes";
     Markdown.md_files := fun _ p => inl ["/notes/a.md"; "/notes/b.md"];
     Markdown.read_text := fun p =>
       if String.eqb p "/notes/a.md" then Markdown.Text "# Mitosis"
       else Markdown.ReadError "[Errno 13] Permission denied: '/notes/b.md'";
     Markdown.read_text_ignore := fun p => inl "" |}.

End Fixtures.

(** * Strings *)

Section StringFacts.

Lemma prefix_app p s : Py.prefix p (p +:+ s) = true.
Proof.
  induction p as [| a p IH]; simpl; [reflexivity |].
  rewrite Ascii.eqb_refl. exact IH.
Qed.

Lemma prefix_app_l p s t : Py.prefix p s = true -> Py.prefix p (s +:+ t) = true.
Proof.
  revert s. induction p as [| a p IH]; intros s H; [reflexivity |].
  destruct s as [| b s]; simpl in *; [discriminate |].
  apply andb_true_iff in H as [Hab Hps].
  rewrite Hab. simpl. apply IH, Hps.
Qed.

Lemma substring_of_unfold p s :
  Py.substring_of p s
  = Py.prefix p s || match s with
                     | EmptyString => false
                     | String _ s' => Py.substring_of p s'
                     end.
Proof. destruct s; reflexivity. Qed.

Lemma substring_of_app_r p a s :
  Py.substring_of p s = true -> Py.substring_of p (a +:+ s) = true.
Proof.
  intros H. induction a as [| c a IH]; [exact H |].
  change (String c a +:+ s) with (String c (a +:+ s)).
  rewrite substring_of_unfold, IH. apply orb_true_r.
Qed.

Lemma substring_of_app_l p s t :
  Py.substring_of p s = true -> Py.substring_of p (s +:+ t) = true.
Proof.
  induction s as [| c s IH]; intros H.
  - rewrite substring_of_unfold in H. rewrite orb_false_r in H.
    destruct p; [| discriminate H]. destruct t; reflexivity.
  - rewrite substring_of_unfold in H.
    change (String c s +:+ t) with (String c (s +:+ t)).
    rewrite substring_of_unfold.
    apply orb_true_iff in H as [H | H].
    + pose proof (prefix_app_l _ (String c s) t H) as Hp.
      change (String c s +:+ t) with (String c (s +:+ t)) in Hp.
      rewrite Hp. reflexivity.
    + rewrite (IH H). apply orb_true_r.
Qed.

Lemma substring_of_middle p a b : Py.substring_of p (a +:+ p +:+ b) = true.
Proof.
  apply substring_of_app_r. rewrite substring_of_unfold, prefix_app. reflexivity.
Qed.

End StringFacts.

(** * Properties of the upload tool *)

Section ToolFacts.

Import Tool.

Variable py_repr : json -> string.
Variable front_first : bool.
Variable svc : service.

Abbreviation request := (_request py_repr svc).
Abbreviation ensure_deck := (_ensure_deck py_repr svc).
Abbreviation ensure_model_fields := (_ensure_model_fields py_repr front_first svc).
Abbreviation tool_run := (_run py_repr front_first svc).

(** [_request] makes exactly one POST, and what it returns does not
    depend on the POSTs made before. *)
Lemma request_eq url action params log :
  request url action params log =
  (fst (request url action params []), (log ++ [(url, body action params)])%list).
Proof.
  unfold _request. simpl.
  destruct (svc url (body action params)) as [data | e | e | e]; try reflexivity.
  destruct data; try reflexivity.
  destruct (Py.truthy (Py.get "error" d)); reflexivity.
Qed.

Lemma ensure_deck_eq url deck log :
  ensure_deck url deck log =
  (fst (ensure_deck url deck []), (log ++ [createDeck_post url deck])%list).
Proof.
  unfold _ensure_deck, bind.
  rewrite (request_eq _ _ _ log), (request_eq _ _ _ []).
  destruct (fst (request url "createDeck" _ [])) as [[r err] | e]; reflexivity.
Qed.

Lemma ensure_model_fields_eq url model log :
  ensure_model_fields url model log =
  (fst (ensure_model_fields url model []),
   (log ++ [modelFieldNames_post url model])%list).
Proof.
  unfold _ensure_model_fields, bind.
  rewrite (request_eq _ _ _ log), (request_eq _ _ _ []).
  destruct (fst (request url "modelFieldNames" _ [])) as [[r err] | e]; [| reflexivity].
  cbn [fst snd].
  destruct (Py.truthy_opt err); [reflexivity |].
  destruct (negb (Py.truthy r) || negb (Py.is_list r)); [reflexivity |].
  unfold lift. destruct (Py.set_elements r) as [elems | e]; [| reflexivity].
  destruct (existsb _ elems && existsb _ elems); reflexivity.
Qed.

(** The POSTs of a run are an initial part of createDeck,
    modelFieldNames, addNotes; the third is there only after both
    checks have passed. *)
Lemma run_log deck model notes url :
  let log := snd (tool_run deck model notes url []) in
  let cd := createDeck_post url deck in
  let mf := modelFieldNames_post url model in
  let an := addNotes_post url deck model (default [] notes) in
  log = [] \/ log = [cd] \/ log = [cd; mf] \/
  (log = [cd; mf; an] /\
   deck_creation_fails py_repr svc url deck = false /\
   schema_validation_fails py_repr front_first svc url model = false).
Proof.
  cbv zeta. unfold _run, bind, lift.
  destruct (invalid_indices_from 0 (default [] notes) []) as [inv | e]; [| by left].
  destruct (negb (is_nil inv)); [by left |].
  destruct (negb (Py.truthy (JStr (Py.strip deck)))); [by left |].
  rewrite (ensure_deck_eq url deck []). simpl app.
  unfold deck_creation_fails.
  destruct (fst (ensure_deck url deck [])) as [err | e]; [| by right; left].
  destruct (Py.truthy_opt err) eqn:Herr; [by right; left |].
  rewrite (ensure_model_fields_eq url model [_]). simpl app.
  unfold schema_validation_fails.
  destruct (fst (ensure_model_fields url model [])) as [[ok err'] | e];
    [| by right; right; left].
  destruct ok; cbn [negb]; cbv beta iota; [| by right; right; left].
  rewrite (request_eq _ _ _ [_; _]). simpl app.
  right; right; right.
  destruct (fst (request url "addNotes" _ [])) as [[r err''] | e]; [| done].
  destruct (Py.truthy_opt err''); done.
Qed.

Lemma no_addNotes_prefixes url deck model :
  no_addNotes [] = true /\
  no_addNotes [createDeck_post url deck] = true /\
  no_addNotes [createDeck_post url deck; modelFieldNames_post url model] = true.
Proof. repeat split; reflexivity. Qed.

(** C2: in every run of [_run] the model-field check comes before the
    addNotes request: a run that issues addNotes has issued createDeck and
    modelFieldNames first, in that order, and both checks have passed; and
    when the deck creation reports an error or the model-field check does
    not return ok, no addNotes request is issued: the POSTs made are at
    most createDeck and modelFieldNames. *)
Theorem C2_no_addNotes_after_failed_check deck model notes url :
  let log := snd (tool_run deck model notes url []) in
  (no_addNotes log = false ->
   log = [createDeck_post url deck; modelFieldNames_post url model;
          addNotes_post url deck model (default [] notes)] /\
   deck_creation_fails py_repr svc url deck = false /\
   schema_validation_fails py_repr front_first svc url model = false) /\
  (deck_creation_fails py_repr svc url deck
   || schema_validation_fails py_repr front_first svc url model = true ->
   no_addNotes log = true /\
   (log = [] \/ log = [createDeck_post url deck] \/
    log = [createDeck_post url deck; modelFieldNames_post url model])).
Proof.
  cbv zeta.
  destruct (no_addNotes_prefixes url deck model) as (H0 & H1 & H2).
  destruct (run_log deck model notes url) as [-> | [-> | [-> | (-> & Hd & Hs)]]].
  - split; [congruence | auto].
  - split; [congruence | auto].
  - split; [congruence | auto].
  - split; [auto |]. intros Hfail. rewrite Hd, Hs in Hfail. discriminate Hfail.
Qed.

(** A response whose error is falsy goes on to the result. *)
Lemma request_result url action params d log :
  svc url (body action params) = Responded (JDict d) ->
  Py.truthy (Py.get "error" d) = false ->
  request url action params log =
  (Ret (Py.get "result" d, None), (log ++ [(url, body action params)])%list).
Proof. intros Hs He. unfold _request. rewrite Hs, He. reflexivity. Qed.

(** C10: when modelFieldNames answers without error and with an empty
    list, [_ensure_model_fields] returns the "Invalid response for model
    field names" error, exactly as it does for a result that is not a
    list; that error is not the missing-required-fields one. *)
Theorem C10_empty_field_list_is_invalid_response url model d log :
  svc url (body "modelFieldNames" (JDict [("modelName", JStr model)])) = Responded (JDict d) ->
  Py.truthy (Py.get "error" d) = false ->
  Py.get "result" d = JList [] \/ Py.is_list (Py.get "result" d) = false ->
  fst (ensure_model_fields url model log)
  = Ret (false, Some "Invalid response for model field names") /\
  "Invalid response for model field names"
  <> "Model '" +:+ model +:+ "' missing required fields " +:+ needed_str front_first.
Proof.
  intros Hs He Hr. split; [| discriminate].
  unfold _ensure_model_fields, bind.
  rewrite (request_result _ _ _ d log Hs He). cbn [Py.truthy_opt].
  destruct Hr as [-> | Hr]; [reflexivity |].
  rewrite Hr, orb_true_r. reflexivity.
Qed.

(** C4, as the code has it: when the response carries a truthy error
    field, [_request] returns no result and [str] of that error, which
    for a string error is the service's message itself, with nothing put
    before it. *)
Theorem C4_truthy_error_is_returned_as_is url action params d log :
  svc url (body action params) = Responded (JDict d) ->
  Py.truthy (Py.get "error" d) = true ->
  request url action params log
  = (Ret (JNull, Some (Tool.py_str py_repr (Py.get "error" d))),
     (log ++ [(url, body action params)])%list) /\
  (forall s, Py.get "error" d = JStr s ->
             fst (request url action params log) = Ret (JNull, Some s)).
Proof.
  intros Hs He.
  assert (Heq : request url action params log
                = (Ret (JNull, Some (Tool.py_str py_repr (Py.get "error" d))),
                   (log ++ [(url, body action params)])%list)).
  { unfold _request. rewrite Hs, He. reflexivity. }
  split; [exact Heq |].
  intros s Hstr. rewrite Heq, Hstr. reflexivity.
Qed.

Lemma validation_fields_truthy n : Py.truthy (validation_fields n) = true.
Proof.
  unfold validation_fields, Py.or_.
  destruct (Py.truthy (Py.get "fields" n)) eqn:H; [exact H | reflexivity].
Qed.

Lemma has_front_back_valid n : has_front_back n -> is_invalid n = Ret false.
Proof.
  intros [Hf Hb]. unfold is_invalid.
  rewrite validation_fields_truthy, Hf, Hb. reflexivity.
Qed.

(** A record whose "fields" entry is absent or falsy is never flagged,
    whatever else it holds: the map the validation loop builds for it
    has both names. *)
Lemma flat_record_is_never_invalid n :
  Py.truthy (Py.get "fields" n) = false -> is_invalid n = Ret false.
Proof.
  intros H. unfold is_invalid, validation_fields, Py.or_. rewrite H. reflexivity.
Qed.

(** The validation loop collects every flagged index, in order. *)
Lemma invalid_indices_from_spec notes bs idx acc :
  Forall2 (fun n b => is_invalid n = Ret b) notes bs ->
  invalid_indices_from idx notes acc = Ret (acc ++ flagged idx bs)%list.
Proof.
  intros H. revert idx acc.
  induction H as [| n b notes bs Hn _ IH]; intros idx acc; simpl.
  - by rewrite app_nil_r.
  - rewrite Hn, IH. destruct b; simpl; [by rewrite <- app_assoc | reflexivity].
Qed.

(** When an index is flagged, the run stops there: the error names all
    the flagged indices and no POST is made. *)
Lemma run_invalid deck model notes bs url log :
  Forall2 (fun n b => is_invalid n = Ret b) notes bs ->
  flagged 0 bs <> [] ->
  tool_run deck model (Some notes) url log
  = (Ret (error_doc ("Invalid notes at indices: " +:+ Py.str_of_nat_list (flagged 0 bs)
                     +:+ ". Each needs Front and Back.")), log).
Proof.
  intros H Hne. unfold _run, bind, lift.
  change (default [] (Some notes)) with notes.
  rewrite (invalid_indices_from_spec _ _ _ _ H). cbn [app].
  destruct (flagged 0 bs); [congruence | reflexivity].
Qed.

Lemma valid_batch_passes notes idx acc :
  Forall has_front_back notes -> invalid_indices_from idx notes acc = Ret acc.
Proof.
  intros H. revert idx acc.
  induction H as [| n notes Hn _ IH]; intros idx acc; simpl; [reflexivity |].
  rewrite (has_front_back_valid n Hn). apply IH.
Qed.


Lemma connection_message_names url e :
  Py.substring_of url (connection_message url e) = true /\
  Py.substring_of "AnkiConnect add-on enabled" (connection_message url e) = true.
Proof.
  unfold connection_message. split.
  - apply substring_of_middle.
  - apply substring_of_app_r, substring_of_app_r, substring_of_app_l. reflexivity.
Qed.

Lemma timeout_message_differs url e url' e' :
  timeout_message url e <> connection_message url' e'.
Proof. unfold timeout_message, connection_message. simpl. discriminate. Qed.

Lemma connection_message_truthy url e :
  Py.truthy_opt (Some (connection_message url e)) = true.
Proof. reflexivity. Qed.


End ToolFacts.

(** ** The tool on concrete batches *)

Section ToolExamples.

Import Tool Fixtures.

(** C1: [_run] on a batch whose only record is flat and has no Front.
    The validation loop does not flag it; the deck and the model are
    checked and the note is submitted with an empty Front. *)
Theorem C1_flat_record_without_Front_is_submitted :
  is_invalid back_only = Ret false /\
  _run repr true healthy "Biology" "Basic" (Some [back_only]) url []
  = (Ret (JDict [("result", JList [JInt 1700000000000])]),
     [createDeck_post url "Biology";
      modelFieldNames_post url "Basic";
      (url, body "addNotes"
              (JDict [("notes",
                       JList [JDict [("deckName", JStr "Biology");
                                     ("modelName", JStr "Basic");
                                     ("fields", JDict [("Front", JStr "");
                                                       ("Back", JStr "Cell division")]);
                                     ("options", JDict [("allowDuplicate", JBool false)]);
                                     ("tags", JList [])]])]))]).
Proof. split; reflexivity. Qed.

(** The sibling case: records with a non-empty fields map are flagged,
    all of them, and nothing is sent. *)
Example nested_records_are_all_reported :
  _run repr true healthy "Biology" "Basic"
       (Some [nested_front_only; mitosis; nested_front_only]) url []
  = (Ret (error_doc "Invalid notes at indices: [0, 2]. Each needs Front and Back."), []).
Proof. reflexivity. Qed.

(** The spec's scenario: one card for deck Biology, model Basic. *)
Example mitosis_prepared :
  prepared_notes "Biology" "Basic" [mitosis]
  = [JDict [("deckName", JStr "Biology");
            ("modelName", JStr "Basic");
            ("fields", JDict [("Front", JStr "Mitosis");
                              ("Back", JStr "Cell division producing two identical cells")]);
            ("options", JDict [("allowDuplicate", JBool false)]);
            ("tags", JList [JStr "bio"])]].
Proof. reflexivity. Qed.

Lemma C2_witness :
  deck_creation_fails repr fieldless url "Biology"
  || schema_validation_fails repr true fieldless url "Basic" = true /\
  no_addNotes (snd (_run repr true fieldless "Biology" "Basic" (Some [mitosis]) url []))
  = true.
Proof.
  split; [reflexivity |].
  apply (C2_no_addNotes_after_failed_check
           repr true fieldless "Biology" "Basic" (Some [mitosis]) url).
  reflexivity.
Defined.


(** C4, as stated, fails: the error comes back without the name of the
    action, from [_request] and from [_run] alike, and an empty-string
    error (not null) is not a failure. *)
Lemma C4_counterexample :
  fst (_request repr (failing (JStr "deck was not found")) url "addNotes" (JDict []) [])
  = Ret (JNull, Some "deck was not found") /\
  Py.substring_of "addNotes" "deck was not found" = false /\
  fst (_run repr true rejecting "Biology" "Basic" (Some [mitosis]) url [])
  = Ret (JDict [("error", JStr "cannot create note because it is a duplicate")]) /\
  Py.substring_of "addNotes" "cannot create note because it is a duplicate" = false /\
  fst (_request repr (failing (JStr "")) url "addNotes" (JDict []) [])
  = Ret (JNull, None).
Proof. repeat split; reflexivity. Qed.

Lemma C4_witness :
  failing (JStr "deck was not found") url (body "createDeck" (JDict [("deck", JStr "Biology")]))
  = Responded (JDict [("result", JNull); ("error", JStr "deck was not found")]) /\
  Py.truthy (JStr "deck was not found") = true /\
  fst (_request repr (failing (JStr "deck was not found")) url "createDeck"
                (JDict [("deck", JStr "Biology")]) [])
  = Ret (JNull, Some "deck was not found").
Proof.
  split; [reflexivity |]. split; [reflexivity |].
  apply (C4_truthy_error_is_returned_as_is
           repr (failing (JStr "deck was not found")) url "createDeck"
           (JDict [("deck", JStr "Biology")])
           [("result", JNull); ("error", JStr "deck was not found")] []);
    reflexivity.
Defined.


Lemma C10_witness :
  fieldless url (body "modelFieldNames" (JDict [("modelName", JStr "Basic")]))
  = Responded (JDict [("result", JList []); ("error", JNull)]) /\
  fst (_ensure_model_fields repr true fieldless url "Basic" [])
  = Ret (false, Some "Invalid response for model field names").
Proof.
  split; [reflexivity |].
  apply (C10_empty_field_list_is_invalid_response
           repr true fieldless url "Basic"
           [("result", JList []); ("error", JNull)] []);
    [reflexivity | reflexivity | left; reflexivity].
Defined.

End ToolExamples.

(** * Properties of the workflow *)

Section FlowFacts.

Import Flow.

Variable base_dir : string.
Variable py_repr : json -> string.
Variable generator : nat -> option string -> py_result (list json).
Variable uploader : option string -> list json -> json.

Abbreviation step' := (step base_dir py_repr generator uploader).
Abbreviation run' := (run base_dir py_repr generator uploader).
Abbreviation visited' := (visited base_dir py_repr generator uploader).
Abbreviation path := (default_path base_dir).

(** ** What each block does *)

Lemma step_init_named st nm f name rest g o :
  name <> "" ->
  step' (AtInit, mkWorld st nm f (name :: rest) g o)
  = (AtDeckNameInput,
     mkWorld st (Some name) f rest g (Input "Enter name of deck: " name :: o)).
Proof.
  intros H. apply String.eqb_neq in H.
  unfold step, block, __init__, bind, input. cbn [fst snd stdin Py.truthy].
  rewrite H. reflexivity.
Qed.

Lemma step_init_empty st nm f rest g o :
  step' (AtInit, mkWorld st nm f ("" :: rest) g o)
  = (AtInit,
     mkWorld st nm f rest g
             (Print "Please type a name for the deck."
              :: Input "Enter name of deck: " "" :: o)).
Proof. reflexivity. Qed.

Lemma step_deck_name_input st nm f ins g o :
  step' (AtDeckNameInput, mkWorld st nm f ins g o)
  = (AtGenerate,
     mkWorld (mkState nm (flashcards st) (approved st)) nm f ins g
             (Print ("✓ Deck name set to: " +:+ str_of_opt nm) :: o)).
Proof. reflexivity. Qed.

Lemma step_generate st nm f ins g o cs :
  generator g (deck_name st) = Ret cs ->
  step' (AtGenerate, mkWorld st nm f ins g o)
  = (AtReview,
     mkWorld (mkState (deck_name st) (Some cs) (approved st)) nm
             (<[path := snapshot_of cs]> f) ins (S g)
             (Print "Flashcards saved to 'anki_flow/flashcards/flashcards.json'."
              :: WriteFile path :: Generate (deck_name st)
              :: Print "Generating flashcards from notes..." :: o)).
Proof.
  intros H.
  unfold step, block, generate_and_review_outer, bind, _run_generate_flashcards.
  cbn [fst snd print emit get_state state gen_calls]. rewrite H. reflexivity.
Qed.

Lemma step_generate_raise st nm f ins g o e :
  generator g (deck_name st) = Raise e ->
  step' (AtGenerate, mkWorld st nm f ins g o)
  = (Crashed e,
     mkWorld st nm f ins (S g)
             (Generate (deck_name st) :: Print "Generating flashcards from notes..." :: o)).
Proof.
  intros H.
  unfold step, block, generate_and_review_outer, bind, _run_generate_flashcards.
  cbn [fst snd print emit get_state state gen_calls]. rewrite H. reflexivity.
Qed.

Lemma step_review_yes st nm f line rest g o :
  answer_of line = "y" ->
  step' (AtReview, mkWorld st nm f (line :: rest) g o)
  = (AtSendToAnki,
     mkWorld (mkState (deck_name st) (flashcards st) true) nm f rest g
             (Input review_prompt line :: o)).
Proof.
  unfold answer_of. intros H.
  unfold step, block, generate_and_review_inner, bind, input. cbn [fst snd stdin].
  rewrite H. reflexivity.
Qed.

Lemma step_review_no st nm f line rest g o :
  answer_of line = "n" ->
  step' (AtReview, mkWorld st nm f (line :: rest) g o)
  = (AtGenerate,
     mkWorld st nm f rest g
             (Print "Regenerating flashcards..." :: Input review_prompt line :: o)).
Proof.
  unfold answer_of. intros H.
  unfold step, block, generate_and_review_inner, bind, input. cbn [fst snd stdin].
  rewrite H. reflexivity.
Qed.

Lemma step_review_other st nm f line rest g o :
  answer_of line <> "y" ->
  answer_of line <> "n" ->
  step' (AtReview, mkWorld st nm f (line :: rest) g o)
  = (AtReview,
     mkWorld st nm f rest g (Print wrong_answer :: Input review_prompt line :: o)).
Proof.
  unfold answer_of. intros Hy Hn.
  apply String.eqb_neq in Hy, Hn.
  unfold step, block, generate_and_review_inner, bind, input. cbn [fst snd stdin].
  rewrite Hy, Hn. reflexivity.
Qed.

Lemma step_eof p st nm f g o :
  p = AtInit \/ p = AtReview ->
  step' (p, mkWorld st nm f [] g o) = (Crashed EOFError, mkWorld st nm f [] g o).
Proof. intros [-> | ->]; reflexivity. Qed.

Lemma step_finished w : step' (Finished, w) = (Finished, w).
Proof. reflexivity. Qed.

Lemma step_crashed e w : step' (Crashed e, w) = (Crashed e, w).
Proof. reflexivity. Qed.

Lemma run_add n m c : run' (n + m) c = run' m (run' n c).
Proof.
  rewrite Nat.add_comm. induction m as [| m IH]; [reflexivity |].
  simpl. by rewrite IH.
Qed.

Lemma step_terminal p w : terminal p -> step' (p, w) = (p, w).
Proof. intros [-> | [e ->]]; reflexivity. Qed.

Lemma visited_terminal f p w n :
  terminal p -> f p = false -> count_places f (visited' n (p, w)) = 0.
Proof.
  intros Ht Hf. induction n as [| n IH]; simpl; rewrite Hf; [reflexivity |].
  rewrite (step_terminal p w Ht). exact IH.
Qed.

(** [send_to_anki] makes at most one upload and is the last block. *)
Lemma step_send_to_anki w :
  let c := step' (AtSendToAnki, w) in
  terminal (fst c) /\
  count_events is_upload (out (snd c))
  = count_events is_upload (out w)
    + (if approved (state w)
       then match flashcards (state w) with Some (_ :: _) => 1 | _ => 0 end
       else 0).
Proof.
  destruct w as [[dn fc ap] nm f ins g o].
  cbv zeta. unfold step, block, send_to_anki, bind, get_state.
  cbn [fst snd state approved flashcards deck_name out].
  destruct ap; cbn [negb].
  - destruct fc as [[| c cs] |].
    + simpl. split; [by left | lia].
    + unfold report_upload, bind, lift, _upload_to_anki. simpl.
      destruct (get_of (uploader dn (c :: cs)) "error") as [e | e].
      * destruct (Py.truthy e); simpl; (split; [by left | lia]).
      * simpl. split; [right; by eexists | lia].
    + simpl. split; [by left | lia].
  - simpl. split; [by left | lia].
Qed.

(** C6: when [send_to_anki] runs with approval granted and no card
    (the list is absent or empty), it prints the diagnostic and returns
    normally; the flow finishes and no upload has been made. *)
Theorem C6_approved_empty_set_is_a_no_op (w : world) :
  approved (state w) = true ->
  flashcards (state w) = None \/ flashcards (state w) = Some [] ->
  send_to_anki py_repr uploader w = (Ret tt, emit (Print no_flashcards) w) /\
  step' (AtSendToAnki, w) = (Finished, emit (Print no_flashcards) w) /\
  count_events is_upload (out (emit (Print no_flashcards) w))
  = count_events is_upload (out w).
Proof.
  intros Hap Hfc.
  assert (Hs : send_to_anki py_repr uploader w = (Ret tt, emit (Print no_flashcards) w)).
  { unfold send_to_anki, bind, get_state. rewrite Hap. cbn [negb].
    destruct Hfc as [-> | ->]; reflexivity. }
  split; [exact Hs |].
  split; [| reflexivity].
  unfold step, block, bind. cbn [fst snd]. rewrite Hs. reflexivity.
Qed.



(** ** The snapshot file *)

Lemma load_flashcards_eq w :
  load_flashcards base_dir w
  = (Ret match fs w !! path with
         | None => inr not_found
         | Some (Malformed msg) => inr ("Failed to read flashcards.json: " +:+ msg)
         | Some (Document (JDict d)) =>
             match Py.get "flashcards" d with
             | JList notes => inl notes
             | _ => inr ("Failed to read flashcards.json: " +:+ format_error)
             end
         | Some (Document data) =>
             inr ("Failed to read flashcards.json: " +:+ Py.no_attribute_msg data "get")
         end, w).
Proof.
  unfold load_flashcards, bind, read_file, default_path.
  destruct (fs w !! _) as [[[| ? | ? | ? | ? | d] |] |]; try reflexivity.
  destruct (Py.get "flashcards" d); reflexivity.
Qed.

Lemma upload_only_banner st nm f deck rest g o :
  upload_only base_dir py_repr uploader (mkWorld st nm f (deck :: rest) g o)
  = (r <- load_flashcards base_dir ;;
     match r with
     | inr msg => print msg
     | inl notes =>
         result <- _upload_to_anki uploader (Some deck) notes ;;
         report_upload py_repr result
     end) (mkWorld st nm f rest g (banner deck o)).
Proof. reflexivity. Qed.

Lemma upload_only_eq st nm f deck rest g o :
  upload_only base_dir py_repr uploader (mkWorld st nm f (deck :: rest) g o)
  = let w' := mkWorld st nm f rest g (banner deck o) in
    match fst (load_flashcards base_dir w') with
    | Ret (inr msg) => print msg w'
    | Ret (inl notes) =>
        report_upload py_repr (uploader (Some deck) notes)
                      (emit (Upload (Some deck) notes) w')
    | Raise e => (Raise e, w')
    end.
Proof.
  cbv zeta. rewrite upload_only_banner. unfold bind at 1.
  rewrite !load_flashcards_eq. cbn [fs fst].
  destruct (f !! path) as [[[| ? | ? | ? | ? | d] |] |]; try reflexivity.
  destruct (Py.get "flashcards" d); reflexivity.
Qed.

Lemma report_upload_uploads result w :
  count_events is_upload (out (snd (report_upload py_repr result w)))
  = count_events is_upload (out w) /\
  forall e, e ∈ out w -> e ∈ out (snd (report_upload py_repr result w)).
Proof.
  unfold report_upload, bind, lift.
  destruct (get_of result "error") as [e | e]; [| by split].
  destruct (Py.truthy e); simpl; (split; [reflexivity | intros; by apply list_elem_of_further]).
Qed.


(** ** The state along a session *)

Lemma step_send_to_anki_keeps w :
  state (snd (step' (AtSendToAnki, w))) = state w /\
  fs (snd (step' (AtSendToAnki, w))) = fs w.
Proof.
  destruct w as [[dn fc ap] nm f ins g o].
  unfold step, block, send_to_anki, bind, get_state.
  cbn [fst snd state approved flashcards deck_name].
  destruct ap; cbn [negb]; [| by split].
  destruct fc as [[| c cs] |]; [by split | | by split].
  unfold report_upload, bind, lift, _upload_to_anki. simpl.
  destruct (get_of (uploader dn (c :: cs)) "error") as [e | e]; [| by split].
  destruct (Py.truthy e); by split.
Qed.

(** One block: [approved] is never cleared, it is set only by the
    acceptance branch of the review loop, and [deck_name] is written
    only by [deck_name_input]. *)
Lemma step_state (c : pc * world) :
  let c' := step' c in
  (approved (state (snd c)) = true -> approved (state (snd c')) = true) /\
  (approved (state (snd c)) = false -> approved (state (snd c')) = true ->
   fst c = AtReview /\ fst c' = AtSendToAnki /\
   exists line rest, stdin (snd c) = line :: rest /\ answer_of line = "y") /\
  (deck_name (state (snd c')) <> deck_name (state (snd c)) -> fst c = AtDeckNameInput).
Proof.
  destruct c as [p [st nm f ins g o]]. cbv zeta. cbn [fst snd state stdin].
  destruct p.
  - destruct ins as [| line rest]; [rewrite step_eof by auto; cbn; intuition congruence |].
    destruct (String.eqb_spec line "") as [-> | Hne].
    + rewrite step_init_empty. cbn. intuition congruence.
    + rewrite step_init_named by exact Hne. cbn. intuition congruence.
  - rewrite step_deck_name_input. cbn. intuition congruence.
  - destruct (generator g (deck_name st)) as [cs | e] eqn:G.
    + rewrite step_generate with (cs := cs) by exact G. cbn. intuition congruence.
    + rewrite step_generate_raise with (e := e) by exact G. cbn. intuition congruence.
  - destruct ins as [| line rest]; [rewrite step_eof by auto; cbn; intuition congruence |].
    destruct (String.eqb_spec (answer_of line) "y") as [Hy | Hy].
    + rewrite step_review_yes by exact Hy. cbn.
      repeat split; try congruence. by exists line, rest.
    + destruct (String.eqb_spec (answer_of line) "n") as [Hn | Hn].
      * rewrite step_review_no by exact Hn. cbn. intuition congruence.
      * rewrite step_review_other by assumption. cbn. intuition congruence.
  - destruct (step_send_to_anki_keeps (mkWorld st nm f ins g o)) as [-> _].
    cbn. intuition congruence.
  - rewrite step_finished. cbn. intuition congruence.
  - rewrite step_crashed. cbn. intuition congruence.
Qed.

Lemma inv_initial files lines : inv base_dir generator (initial files lines).
Proof. split; reflexivity. Qed.

Lemma inv_step c : inv base_dir generator c -> inv base_dir generator (step' c).
Proof.
  destruct c as [p [st nm f ins g o]]. unfold inv. cbn [fst snd state gen_calls fs name_of_deck].
  destruct p.
  - intros [-> ->].
    destruct ins as [| line rest]; [rewrite step_eof by auto; exact I |].
    destruct (String.eqb_spec line "") as [-> | Hne].
    + rewrite step_init_empty. cbn. by split.
    + rewrite step_init_named by exact Hne. cbn. repeat split. by eexists.
  - intros (-> & -> & name & ->). rewrite step_deck_name_input. cbn.
    split; [reflexivity | by eexists].
  - intros (Hap & name & Hdn).
    destruct (generator g (deck_name st)) as [cs | e] eqn:G.
    + rewrite step_generate with (cs := cs) by exact G. cbn.
      split; [exact Hap |]. split; [by eexists |].
      exists cs, g. repeat split; [apply lookup_insert_eq | exact G].
    + rewrite step_generate_raise with (e := e) by exact G. exact I.
  - intros (Hap & Hdn & cs & k & Hfc & Hfs & Hg & Hgen).
    destruct ins as [| line rest]; [rewrite step_eof by auto; exact I |].
    destruct (String.eqb_spec (answer_of line) "y") as [Hy | Hy].
    + rewrite step_review_yes by exact Hy. cbn. by split.
    + destruct (String.eqb_spec (answer_of line) "n") as [Hn | Hn].
      * rewrite step_review_no by exact Hn. cbn. by split.
      * rewrite step_review_other by assumption. cbn.
        split; [exact Hap |]. split; [exact Hdn |]. by exists cs, k.
  - intros (Hap & Hdn).
    pose proof (step_send_to_anki (mkWorld st nm f ins g o)) as [Hterm _].
    pose proof (step_send_to_anki_keeps (mkWorld st nm f ins g o)) as [Hst _].
    destruct (step' (AtSendToAnki, _)) as [p' w']. cbn [fst snd state] in *.
    destruct Hterm as [-> | [e ->]]; [| exact I].
    rewrite Hst. by split.
  - intros H. rewrite step_finished. exact H.
  - intros _. rewrite step_crashed. exact I.
Qed.

Lemma inv_run files lines n : inv base_dir generator (run' n (initial files lines)).
Proof. induction n as [| n IH]; [apply inv_initial | apply inv_step, IH]. Qed.

Lemma approved_stays c m :
  approved (state (snd c)) = true -> approved (state (snd (run' m c))) = true.
Proof.
  intros H. induction m as [| m IH]; [exact H |].
  simpl. by apply step_state.
Qed.

Lemma deck_name_kept c :
  inv base_dir generator c ->
  forall name, deck_name (state (snd c)) = Some name ->
               deck_name (state (snd (step' c))) = Some name.
Proof.
  intros Hinv name Hdn.
  destruct (decide (deck_name (state (snd (step' c))) = deck_name (state (snd c))))
    as [Heq | Hne]; [by rewrite Heq |].
  apply step_state in Hne.
  destruct c as [p w]. cbn [fst] in Hne. subst p.
  destruct Hinv as (Hst & _). cbn [snd] in *. rewrite Hst in Hdn. discriminate Hdn.
Qed.

Lemma deck_name_stays c m :
  inv base_dir generator c ->
  forall name, deck_name (state (snd c)) = Some name ->
               deck_name (state (snd (run' m c))) = Some name.
Proof.
  intros Hinv name Hdn.
  assert (H : inv base_dir generator (run' m c)
              /\ deck_name (state (snd (run' m c))) = Some name).
  { induction m as [| m [IHi IHd]]; [by split |].
    simpl. split; [by apply inv_step | by apply deck_name_kept]. }
  apply H.
Qed.


End FlowFacts.

(** ** The workflow on concrete sessions *)

Section FlowExamples.

Import Flow Fixtures.

Lemma C6_witness :
  approved (state approved_empty) = true /\
  (flashcards (state approved_empty) = None \/
   flashcards (state approved_empty) = Some []) /\
  step root repr generator uploader (AtSendToAnki, approved_empty)
  = (Finished, emit (Print no_flashcards) approved_empty).
Proof.
  split; [reflexivity |]. split; [right; reflexivity |].
  apply (C6_approved_empty_set_is_a_no_op root repr generator uploader approved_empty);
    [reflexivity | right; reflexivity].
Defined.



End FlowExamples.


(** * More on the upload tool *)

Section ToolMore.

Import Tool.

Variable py_repr : json -> string.
Variable front_first : bool.
Variable svc : service.

Abbreviation request := (_request py_repr svc).
Abbreviation ensure_deck := (_ensure_deck py_repr svc).
Abbreviation ensure_model_fields := (_ensure_model_fields py_repr front_first svc).
Abbreviation tool_run := (_run py_repr front_first svc).

Lemma flagged_elem bs : forall idx i,
  i ∈ flagged idx bs <-> idx <= i /\ bs !! (i - idx) = Some true.
Proof.
  induction bs as [| b bs IH]; intros idx i; cbn [flagged].
  - rewrite lookup_nil. split; [intros H; inversion H | intros [_ H]; discriminate H].
  - rewrite elem_of_app, IH.
    destruct (decide (i = idx)) as [-> | Hne].
    + rewrite Nat.sub_diag. cbn [lookup list_lookup].
      destruct b; split.
      * intros _. split; [lia | reflexivity].
      * intros _. left. apply list_elem_of_here.
      * intros [H | [H _]]; [inversion H | lia].
      * intros [_ H]. discriminate H.
    + split.
      * intros [H | [Hle Hb]].
        -- destruct b; [apply list_elem_of_singleton in H; congruence | inversion H].
        -- split; [lia |]. replace (i - idx) with (S (i - S idx)) by lia. exact Hb.
      * intros [Hle Hb]. right. split; [lia |].
        replace (i - idx) with (S (i - S idx)) in Hb by lia. exact Hb.
Qed.

Lemma flagged_sorted bs : forall idx, StronglySorted lt (flagged idx bs).
Proof.
  induction bs as [| b bs IH]; intros idx; cbn [flagged]; [constructor |].
  destruct b; cbn [app]; [| apply IH].
  constructor; [apply IH |].
  apply Forall_forall. intros i Hi. apply flagged_elem in Hi. lia.
Qed.

(** X1: when the validation check raises on no record and flags at least
    one, [_run] returns the error that lists the flagged indices and makes
    no request, whatever the deck name; the indices listed are exactly the
    flagged positions, in increasing order. *)
Theorem X1_invalid_batch_report deck model notes bs url log :
  Forall2 (fun n b => is_invalid n = Ret b) notes bs ->
  flagged 0 bs <> [] ->
  tool_run deck model (Some notes) url log
  = (Ret (error_doc ("Invalid notes at indices: "
                     +:+ Py.str_of_nat_list (flagged 0 bs)
                     +:+ ". Each needs Front and Back.")), log) /\
  (forall i, i ∈ flagged 0 bs <-> bs !! i = Some true) /\
  StronglySorted lt (flagged 0 bs).
Proof.
  intros H Hne. split; [by apply run_invalid |].
  split; [| apply flagged_sorted].
  intros i. rewrite flagged_elem, Nat.sub_0_r. split; [tauto | split; [lia | done]].
Qed.

(** X2: records without a truthy "fields" entry are never flagged,
    whatever keys they have: on a batch of such records the validation
    loop returns its accumulator unchanged. *)
Theorem X2_flat_batch_is_never_rejected notes idx acc :
  Forall (fun n => Py.truthy (Py.get "fields" n) = false) notes ->
  invalid_indices_from idx notes acc = Ret acc.
Proof.
  intros H. revert idx acc.
  induction H as [| n notes Hn _ IH]; intros idx acc; cbn [invalid_indices_from];
    [reflexivity |].
  rewrite (flat_record_is_never_invalid n Hn). apply IH.
Qed.

Lemma lstrip_blank s : blank (Py.lstrip s) = blank s.
Proof.
  induction s as [| a r IH]; [reflexivity |].
  cbn [Py.lstrip blank]. destruct (Py.isspace a) eqn:Ha; [exact IH |].
  cbn [blank]. by rewrite Ha.
Qed.

Lemma rstrip_empty s : Py.rstrip s = "" <-> blank s = true.
Proof.
  induction s as [| a r IH]; [done |].
  cbn [Py.rstrip blank].
  destruct (Py.isspace a); cbn [andb].
  - destruct (String.eqb_spec (Py.rstrip r) "") as [He | Hne].
    + split; [intros _; by apply IH | done].
    + split; [discriminate |]. intros Hb. apply IH in Hb. contradiction.
  - split; discriminate.
Qed.

(** [strip] leaves nothing exactly of the blank strings. *)
Lemma strip_empty s : Py.strip s = "" <-> blank s = true.
Proof. unfold Py.strip. by rewrite rstrip_empty, lstrip_blank. Qed.


Lemma truthy_opt_some o :
  Py.truthy_opt o = true -> exists s, o = Some s /\ s <> "".
Proof.
  destruct o as [s |]; [| discriminate]. cbn [Py.truthy_opt].
  intros H. exists s. split; [reflexivity |].
  intros ->. discriminate H.
Qed.

Lemma request_cases url action params log :
  (exists e, fst (request url action params log) = Ret (JNull, Some e)) \/
  (exists d, svc url (body action params) = Responded (JDict d) /\
             Py.truthy (Py.get "error" d) = false /\
             fst (request url action params log) = Ret (Py.get "result" d, None)) \/
  (exists data, svc url (body action params) = Responded data /\
                (forall d, data <> JDict d) /\
                fst (request url action params log) = Raise (Py.no_attribute data "get")).
Proof.
  unfold _request.
  destruct (svc url (body action params)) as [data | e | e | e];
    cbn [fst]; try (left; by eexists).
  destruct data; cbn [fst];
    try (right; right; eexists; split; [reflexivity | split; [discriminate | reflexivity]]).
  destruct (Py.truthy (Py.get "error" d)) eqn:He; cbn [fst].
  - left. by eexists.
  - right; left. by exists d.
Qed.

(** X5: [_request] makes exactly one POST and never returns a result
    together with an error: with an error the result is None; without
    one the body was an object whose error is falsy and the result is its
    "result" entry; it raises only when the body is not an object. *)
Theorem X5_request_outcomes url action params log :
  snd (request url action params log) = (log ++ [(url, body action params)])%list /\
  match fst (request url action params log) with
  | Ret (r, Some e) => r = JNull
  | Ret (r, None) =>
      exists d, svc url (body action params) = Responded (JDict d) /\
                Py.truthy (Py.get "error" d) = false /\
                r = Py.get "result" d
  | Raise e =>
      exists data, svc url (body action params) = Responded data /\
                   (forall d, data <> JDict d) /\
                   e = Py.no_attribute data "get"
  end.
Proof.
  split; [by rewrite request_eq |].
  destruct (request_cases url action params log)
    as [(e & ->) | [(d & Hs & He & ->) | (data & Hs & Hd & ->)]].
  - reflexivity.
  - by exists d.
  - by exists data.
Qed.

Lemma ensure_model_fields_not_ok url model log err :
  fst (ensure_model_fields url model log) = Ret (false, err) ->
  exists s, err = Some s /\ s <> "".
Proof.
  unfold _ensure_model_fields, bind, lift.
  rewrite (request_eq py_repr svc _ _ _ log).
  destruct (fst (request url "modelFieldNames" _ [])) as [[r e] | e]; [| discriminate].
  destruct (Py.truthy_opt e) eqn:He.
  - cbn. intros [= <-]. by apply truthy_opt_some.
  - destruct (negb (Py.truthy r) || negb (Py.is_list r)).
    + cbn. intros [= <-]. eexists. split; [reflexivity | discriminate].
    + destruct (Py.set_elements r) as [elems | e']; [| discriminate].
      destruct (existsb _ elems && existsb _ elems); cbn; [discriminate |].
      intros [= <-]. eexists. split; [reflexivity | discriminate].
Qed.



Lemma invalid_indices_raise pre n post : forall idx acc,
  Forall (fun m => exists b, is_invalid m = Ret b) pre ->
  is_invalid n = Raise TypeError ->
  invalid_indices_from idx (pre ++ n :: post)%list acc = Raise TypeError.
Proof.
  induction pre as [| m pre IH]; intros idx acc Hpre Hn; cbn [app invalid_indices_from].
  - by rewrite Hn.
  - apply Forall_cons in Hpre as [[b Hm] Hpre]. rewrite Hm. by apply IH.
Qed.

(** X7: a record whose "fields" entry is [true] or a non-zero number makes
    [_run] raise [TypeError] instead of returning an error document, with
    no request made, when the check raises on no record before it; what
    was flagged before it is lost. *)
Theorem X7_unusable_fields_raise deck model pre n post url log :
  Forall (fun m => exists b, is_invalid m = Ret b) pre ->
  Py.get "fields" n = JBool true \/
  (exists z, z <> 0%Z /\ Py.get "fields" n = JInt z) ->
  tool_run deck model (Some (pre ++ n :: post)%list) url log = (Raise TypeError, log).
Proof.
  intros Hpre Hn.
  assert (Hinv : is_invalid n = Raise TypeError).
  { unfold is_invalid, validation_fields, Py.or_.
    destruct Hn as [-> | (z & Hz & ->)]; [reflexivity |].
    cbn [Py.truthy]. apply Z.eqb_neq in Hz. rewrite Hz. cbn. by rewrite Hz. }
  unfold _run, bind, lift.
  change (default [] (Some (pre ++ n :: post)%list)) with (pre ++ n :: post)%list.
  by rewrite (invalid_indices_raise pre n post 0 [] Hpre Hinv).
Qed.

(** X8: whenever [_run] returns, the document is either an "error" with
    a non-empty string or a "result"; it is a "result" only after the
    three requests have been made. *)
Theorem X8_run_result_shape deck model notes url doc log :
  tool_run deck model notes url [] = (Ret doc, log) ->
  (exists s, s <> "" /\ doc = error_doc s) \/
  (exists r, doc = JDict [("result", r)] /\
             log = [createDeck_post url deck; modelFieldNames_post url model;
                    addNotes_post url deck model (default [] notes)]).
Proof.
  unfold _run, bind, lift.
  destruct (invalid_indices_from 0 (default [] notes) []) as [inv | e]; [| discriminate].
  destruct (negb (is_nil inv)).
  { intros [= <- <-]. left. eexists. split; [| reflexivity]. discriminate. }
  destruct (negb (Py.truthy (JStr (Py.strip deck)))).
  { intros [= <- <-]. left. eexists. split; [| reflexivity]. discriminate. }
  rewrite (ensure_deck_eq py_repr svc url deck []). simpl app.
  destruct (fst (ensure_deck url deck [])) as [err | e]; [| discriminate].
  destruct (Py.truthy_opt err) eqn:Herr.
  { intros [= <- <-]. left. eexists. split; [| reflexivity]. discriminate. }
  rewrite (ensure_model_fields_eq py_repr front_first svc url model [_]). simpl app.
  destruct (fst (ensure_model_fields url model [])) as [[ok err'] | e] eqn:Hm;
    [| discriminate].
  destruct ok; cbn [negb]; cbv beta iota.
  - rewrite (request_eq py_repr svc _ _ _ [_; _]). simpl app.
    destruct (fst (request url "addNotes" _ [])) as [[r err''] | e]; [| discriminate].
    destruct (Py.truthy_opt err'') eqn:He; intros [= <- <-].
    + left. apply truthy_opt_some in He as (s & -> & Hs). by exists s.
    + right. by exists r.
  - intros [= <- <-]. left.
    apply ensure_model_fields_not_ok in Hm as (s & -> & Hs). by exists s.
Qed.

Lemma contains_prepared k n :
  Py.contains k (prepared_fields n) = Py.contains k (validation_fields n).
Proof.
  unfold prepared_fields, validation_fields, Py.or_.
  destruct (Py.truthy (Py.get "fields" n)); [reflexivity |].
  cbn [Py.contains]. unfold Py.has_key. cbn [Py.lookup].
  destruct (String.eqb k "Front"); [reflexivity |].
  destruct (String.eqb k "Back"); reflexivity.
Qed.

(** X9: the notes prepared from a batch that passes validation all carry
    "Front" and "Back" in their fields; and a record with a truthy
    "fields" entry is submitted with that entry as it is, its own
    top-level Front and Back being ignored. *)
Theorem X9_prepared_fields_agree deck model (notes : list dict) :
  Forall has_front_back notes ->
  Forall (fun pn => exists d f,
                      pn = JDict d /\ Py.lookup "fields" d = Some f /\
                      Py.contains "Front" f = Ret true /\
                      Py.contains "Back" f = Ret true)
         (prepared_notes deck model notes) /\
  (forall n, n ∈ notes -> Py.truthy (Py.get "fields" n) = true ->
             prepared_fields n = Py.get "fields" n).
Proof.
  intros H. split.
  - unfold prepared_notes. apply Forall_fmap. eapply Forall_impl; [exact H |].
    intros n [Hf Hb]. eexists _, (prepared_fields n).
    split; [reflexivity |]. split; [reflexivity |].
    by rewrite !contains_prepared.
  - intros n _ Ht. unfold prepared_fields, Py.or_. by rewrite Ht.
Qed.

End ToolMore.


(** * More on the workflow *)

Section FlowMore.

Import Flow.

Variable base_dir : string.
Variable py_repr : json -> string.
Variable generator : nat -> option string -> py_result (list json).
Variable uploader : option string -> list json -> json.

Abbreviation step' := (step base_dir py_repr generator uploader).
Abbreviation run' := (run base_dir py_repr generator uploader).
Abbreviation inv' := (inv base_dir generator).
Abbreviation path := (default_path base_dir).
Abbreviation uploads := (count_events is_upload).

Lemma run_S_step n c : run' (S n) c = run' n (step' c).
Proof. exact (run_add base_dir py_repr generator uploader 1 n c). Qed.

(** A block other than [send_to_anki] makes no upload, and touches the
    cards, the files and the generator count only by a generation that
    succeeds. *)
Lemma step_frame (c : pc * world) :
  fst c <> AtSendToAnki ->
  let c' := step' c in
  uploads (out (snd c')) = uploads (out (snd c)) /\
  ((fs (snd c') = fs (snd c) /\
    flashcards (state (snd c')) = flashcards (state (snd c)) /\
    gen_calls (snd c) <= gen_calls (snd c')) \/
   (exists cs,
       fst c = AtGenerate /\
       generator (gen_calls (snd c)) (deck_name (state (snd c))) = Ret cs /\
       fs (snd c') = <[path := snapshot_of cs]> (fs (snd c)) /\
       flashcards (state (snd c')) = Some cs /\
       gen_calls (snd c') = S (gen_calls (snd c)) /\
       deck_name (state (snd c')) = deck_name (state (snd c)))).
Proof.
  destruct c as [p [st nm f ins g o]]. cbv zeta. cbn [fst snd]. intros Hp.
  destruct p; try congruence.
  - destruct ins as [| line rest];
      [rewrite step_eof by auto; cbn; split; [done | left; split_and!; done] |].
    destruct (String.eqb_spec line "") as [-> | Hne].
    + rewrite step_init_empty. cbn. split; [done | left; split_and!; done].
    + rewrite step_init_named by exact Hne. cbn. split; [done | left; split_and!; done].
  - rewrite step_deck_name_input. cbn. split; [done | left; split_and!; done].
  - destruct (generator g (deck_name st)) as [cs | e] eqn:G.
    + rewrite step_generate with (cs := cs) by exact G. cbn.
      split; [done |]. right. exists cs. split_and!; done.
    + rewrite step_generate_raise with (e := e) by exact G. cbn.
      split; [done | left; split_and!; [done | done | lia]].
  - destruct ins as [| line rest];
      [rewrite step_eof by auto; cbn; split; [done | left; split_and!; done] |].
    destruct (String.eqb_spec (answer_of line) "y") as [Hy | Hy].
    + rewrite step_review_yes by exact Hy. cbn. split; [done | left; split_and!; done].
    + destruct (String.eqb_spec (answer_of line) "n") as [Hn | Hn].
      * rewrite step_review_no by exact Hn. cbn. split; [done | left; split_and!; done].
      * rewrite step_review_other by assumption. cbn.
        split; [done | left; split_and!; done].
  - rewrite step_finished. cbn. split; [done | left; split_and!; done].
  - rewrite step_crashed. cbn. split; [done | left; split_and!; done].
Qed.

(** [send_to_anki] reads nothing and calls no generator, and what it
    uploads is the state's deck name and cards, approved and not empty. *)
Lemma step_send_frame w :
  let c' := step' (AtSendToAnki, w) in
  stdin (snd c') = stdin w /\
  gen_calls (snd c') = gen_calls w /\
  forall d cs,
    Upload d cs ∈ out (snd c') ->
    Upload d cs ∈ out w \/
    (approved (state w) = true /\ d = deck_name (state w) /\
     flashcards (state w) = Some cs /\ cs <> []).
Proof.
  destruct w as [[dn fc ap] nm f ins g o].
  cbv zeta. unfold step, block, send_to_anki, bind, get_state.
  cbn [fst snd state approved flashcards deck_name].
  destruct ap; cbn [negb]; [| cbn; split_and!; auto].
  destruct fc as [[| c cs] |].
  - cbn. split_and!; try done. intros d cs0 H.
    apply elem_of_cons in H as [H | H]; [discriminate H | by left].
  - unfold report_upload, bind, lift, _upload_to_anki. simpl.
    assert (Hup : forall d cs0 (evs : list event),
               Upload d cs0 ∈ Upload dn (c :: cs) :: Print "Uploading flashcards to Anki..." :: evs ->
               evs = o ->
               Upload d cs0 ∈ o \/ (true = true /\ d = dn /\ Some (c :: cs) = Some cs0 /\ cs0 <> [])).
    { intros d cs0 evs H ->.
      apply elem_of_cons in H as [[= -> ->] | H]; [right; split_and!; done |].
      apply elem_of_cons in H as [H | H]; [discriminate H | by left]. }
    destruct (get_of (uploader dn (c :: cs)) "error") as [e | e].
    + destruct (Py.truthy e); simpl; split_and!; try done;
        intros d cs0 H; apply elem_of_cons in H as [H | H]; try discriminate H;
        (destruct (Hup d cs0 o H eq_refl) as [? | (_ & ? & [= <-] & ?)];
           [by left | right; split_and!; done]).
    + simpl. split_and!; try done. intros d cs0 H.
      destruct (Hup d cs0 o H eq_refl) as [? | (_ & ? & [= <-] & ?)];
        [by left | right; split_and!; done].
  - cbn. split_and!; try done. intros d cs H.
    apply elem_of_cons in H as [H | H]; [discriminate H | by left].
Qed.

Lemma no_upload_counted d cs o : uploads o = 0 -> Upload d cs ∉ o.
Proof.
  induction o as [| e o IH]; intros Hc Hin; [by apply elem_of_nil in Hin |].
  cbn [count_events] in Hc. apply elem_of_cons in Hin as [<- | Hin].
  - cbn in Hc. discriminate Hc.
  - apply IH; [| exact Hin]. destruct (is_upload e); cbn in Hc; lia.
Qed.

Lemma at_send_to_anki_dec p : {p = AtSendToAnki} + {p <> AtSendToAnki}.
Proof. destruct p; first [by left | by right]. Qed.

(** What holds of every configuration of a session besides [inv]: the
    cards in the state are the ones in the snapshot file and came from a
    generator call; no other file is written; an upload is made at most
    once, by the last block, of the approved cards. *)
Lemma session_invariants files lines n :
  let c := run' n (initial files lines) in
  inv' c /\
  ((forall cs,
       flashcards (state (snd c)) = Some cs ->
       fs (snd c) !! path = Some (snapshot_of cs) /\
       exists k, k < gen_calls (snd c) /\
                 generator k (deck_name (state (snd c))) = Ret cs) /\
   (flashcards (state (snd c)) = None -> fs (snd c) = files) /\
   (forall p, p <> path -> fs (snd c) !! p = files !! p)) /\
  (uploads (out (snd c)) = 0 \/
   (terminal (fst c) /\ uploads (out (snd c)) = 1 /\
    forall d cs,
      Upload d cs ∈ out (snd c) ->
      approved (state (snd c)) = true /\ d = deck_name (state (snd c)) /\
      flashcards (state (snd c)) = Some cs /\ cs <> [])).
Proof.
  cbv zeta. induction n as [| n (Hinv & (Hk1 & Hk2 & Hk3) & Hu)].
  { split; [apply inv_initial |]. cbn. split; [| by left].
    split_and!; [discriminate | done | done]. }
  cbn [run]. set (c := run' n (initial files lines)) in *.
  split; [by apply inv_step |].
  destruct (at_send_to_anki_dec (fst c)) as [Hsend | Hsend].
  - destruct c as [p w]. cbn [fst snd] in *. subst p.
    destruct (step_send_to_anki_keeps base_dir py_repr generator uploader w) as [Hst Hfs].
    destruct (step_send_frame w) as (_ & Hg & Hmem).
    destruct (step_send_to_anki base_dir py_repr generator uploader w) as [Hterm Hcount].
    split.
    + rewrite Hst, Hfs, Hg. split_and!; assumption.
    + destruct Hu as [Hu | ([? | [? ?]] & _)]; [| discriminate ..].
      rewrite Hu in Hcount. cbn [Nat.add] in Hcount.
      destruct (approved (state w)) eqn:Hap; [| by left].
      destruct (flashcards (state w)) as [[| c0 cs0] |] eqn:Hfc; [by left | | by left].
      right. split; [exact Hterm |]. split; [exact Hcount |].
      intros d cs Hin. rewrite Hst.
      destruct (Hmem d cs Hin) as [Hold | H];
        [by apply no_upload_counted in Hold |].
      rewrite Hap, Hfc. exact H.
  - destruct (step_frame c Hsend) as [Hcount Hfr].
    destruct (step_state base_dir py_repr generator uploader c) as (_ & _ & Hdeck).
    split.
    + destruct Hfr as [(Hfs & Hfc & Hg) | (cs & Hp & G & Hfs & Hfc & Hg & Hdn)].
      * rewrite Hfs, Hfc. split_and!; [| assumption | assumption].
        intros cs Hcs. destruct (Hk1 cs Hcs) as (Hfile & k & Hlt & Hgen).
        split; [exact Hfile |]. exists k. split; [lia |].
        destruct (decide (deck_name (state (snd (step' c))) = deck_name (state (snd c))))
          as [-> | Hne]; [exact Hgen |].
        apply Hdeck in Hne. destruct c as [p w]. cbn [fst snd] in *. subst p.
        destruct Hinv as (Hdef & _). cbn [snd] in Hdef. rewrite Hdef in Hcs. discriminate Hcs.
      * rewrite Hfs, Hfc, Hg, Hdn. split_and!.
        -- intros cs' [= <-]. split; [apply lookup_insert_eq |].
           exists (gen_calls (snd c)). split; [lia | exact G].
        -- discriminate.
        -- intros p Hp'. rewrite lookup_insert_ne by congruence. by apply Hk3.
    + destruct Hu as [Hu | (Hterm & Hu)].
      * left. by rewrite Hcount.
      * right. destruct c as [p w]. cbn [fst snd] in *.
        rewrite (step_terminal base_dir py_repr generator uploader p w Hterm).
        split; [exact Hterm | exact Hu].
Qed.

(** X11: in every session at most one upload is made, and if one has been
    made the session is over and what was uploaded is what the state
    holds: the reviewer had approved, the deck name is the state's, the
    cards are the state's, not empty, the ones in the snapshot file, and
    they came from a generator call for that deck. *)
Theorem X11_upload_is_the_approved_set files lines n :
  let c := run' n (initial files lines) in
  uploads (out (snd c)) <= 1 /\
  forall d cs,
    Upload d cs ∈ out (snd c) ->
    terminal (fst c) /\
    approved (state (snd c)) = true /\
    d = deck_name (state (snd c)) /\
    flashcards (state (snd c)) = Some cs /\
    cs <> [] /\
    fs (snd c) !! path = Some (snapshot_of cs) /\
    exists k, k < gen_calls (snd c) /\ generator k d = Ret cs.
Proof.
  cbv zeta.
  destruct (session_invariants files lines n) as (_ & (Hk & _) & Hu).
  destruct Hu as [Hu | (Hterm & Hu & Hmem)].
  - split; [lia |]. intros d cs Hin. by apply no_upload_counted in Hin.
  - split; [lia |]. intros d cs Hin.
    destruct (Hmem d cs Hin) as (Hap & -> & Hfc & Hne).
    destruct (Hk cs Hfc) as (Hfile & Hgen). split_and!; first [assumption | reflexivity].
Qed.


Lemma weight_step c : ~ terminal (fst c) -> weight (step' c) < weight c.
Proof.
  destruct c as [p [st nm f ins g o]]. intros Hnt.
  destruct p.
  - destruct ins as [| line rest]; [rewrite step_eof by auto; cbn; lia |].
    destruct (String.eqb_spec line "") as [-> | Hne].
    + rewrite step_init_empty. cbn. lia.
    + rewrite step_init_named by exact Hne. cbn. lia.
  - rewrite step_deck_name_input. cbn. lia.
  - destruct (generator g (deck_name st)) as [cs | e] eqn:G.
    + rewrite step_generate with (cs := cs) by exact G. cbn. lia.
    + rewrite step_generate_raise with (e := e) by exact G. cbn. lia.
  - destruct ins as [| line rest]; [rewrite step_eof by auto; cbn; lia |].
    destruct (String.eqb_spec (answer_of line) "y") as [Hy | Hy].
    + rewrite step_review_yes by exact Hy. cbn. lia.
    + destruct (String.eqb_spec (answer_of line) "n") as [Hn | Hn].
      * rewrite step_review_no by exact Hn. cbn. lia.
      * rewrite step_review_other by assumption. cbn. lia.
  - pose proof (step_send_to_anki base_dir py_repr generator uploader
                  (mkWorld st nm f ins g o)) as [Hterm _].
    pose proof (step_send_frame (mkWorld st nm f ins g o)) as (Hin & _).
    destruct (step' (AtSendToAnki, _)) as [p' w']. cbn [fst snd stdin] in *.
    unfold weight. cbn [fst snd stdin]. rewrite Hin.
    destruct Hterm as [-> | [e ->]]; lia.
  - exfalso. apply Hnt. by left.
  - exfalso. apply Hnt. right. by eexists.
Qed.

Lemma terminal_dec p : {terminal p} + {~ terminal p}.
Proof.
  destruct p; try (right; intros [H | [e H]]; discriminate H).
  - left. by left.
  - left. right. by eexists.
Qed.

Lemma run_ends k : forall c,
  weight c <= k -> exists n, n <= k /\ terminal (fst (run' n c)).
Proof.
  induction k as [| k IH]; intros c Hw.
  - exists 0. split; [lia |]. cbn [run].
    destruct (terminal_dec (fst c)) as [Ht | Hnt]; [exact Ht |].
    apply weight_step in Hnt. lia.
  - destruct (terminal_dec (fst c)) as [Ht | Hnt]; [exists 0; split; [lia | exact Ht] |].
    apply weight_step in Hnt.
    destruct (IH (step' c) ltac:(lia)) as (n & Hn & Ht).
    exists (S n). split; [lia |]. by rewrite run_S_step.
Qed.

(** X13: every session on a finite script ends, finished or crashed,
    within two blocks per line of the script and three more, whatever the
    generator and the upload return. *)
Theorem X13_session_ends files lines :
  exists n, n <= 2 * length lines + 3 /\
            terminal (fst (run' n (initial files lines))).
Proof. apply run_ends. reflexivity. Qed.

Lemma reprompts_shift k o :
  reprompts k (Print "Please type a name for the deck."
               :: Input "Enter name of deck: " "" :: o)
  = reprompts (S k) o.
Proof. induction k as [| k IH]; [reflexivity |]. cbn [reprompts] in *. by rewrite IH. Qed.

(** X10: the deck-name loop takes the first non-empty line as the name,
    as typed (it is not stripped, so a name of spaces is taken): after [k]
    empty lines, each answered with the request to type a name, and one
    non-empty line, [deck_name_input] puts that line in the state;
    nothing else of the state, no file and no generator call is
    involved. *)
Theorem X10_deck_name_prompt k name rest st nm f g o :
  name <> "" ->
  run' (S (S k)) (AtInit, mkWorld st nm f (replicate k "" ++ name :: rest)%list g o)
  = (AtGenerate,
     mkWorld (mkState (Some name) (flashcards st) (approved st)) (Some name) f rest g
             (Print ("✓ Deck name set to: " +:+ name)
              :: Input "Enter name of deck: " name :: reprompts k o)).
Proof.
  intros Hname.
  assert (H : forall k o,
             run' (S k) (AtInit, mkWorld st nm f (replicate k "" ++ name :: rest)%list g o)
             = (AtDeckNameInput,
                mkWorld st (Some name) f rest g
                        (Input "Enter name of deck: " name :: reprompts k o))).
  { clear k o. induction k as [| k IH]; intros o.
    - cbn [run replicate app reprompts]. by rewrite step_init_named.
    - rewrite run_S_step. cbn [replicate app].
      rewrite step_init_empty, IH, reprompts_shift. reflexivity. }
  change (run' (S (S k)) ?c) with (step' (run' (S k) c)).
  rewrite H, step_deck_name_input. reflexivity.
Qed.

Lemma report_upload_frame result w :
  let w' := snd (report_upload py_repr result w) in
  state w' = state w /\ fs w' = fs w /\ stdin w' = stdin w.
Proof.
  cbv zeta. unfold report_upload, bind, lift.
  destruct (get_of result "error") as [e | e]; [| done].
  destruct (Py.truthy e); done.
Qed.

(** X16: [upload_only] takes the next line as the deck name as it is
    (also an empty one), leaves the state and the files alone, and makes
    an upload exactly when the snapshot file holds an object whose
    "flashcards" entry is a list: it uploads that list, also when it is
    empty.  With no line to read it raises [EOFError] before looking at
    the file. *)
Theorem X16_upload_only_outcomes (w : world) :
  let r := upload_only base_dir py_repr uploader w in
  match stdin w with
  | [] => fst r = Raise EOFError /\ uploads (out (snd r)) = uploads (out w)
  | deck :: rest =>
      state (snd r) = state w /\ fs (snd r) = fs w /\ stdin (snd r) = rest /\
      match fs w !! path with
      | Some (Document (JDict d)) =>
          match Py.get "flashcards" d with
          | JList notes =>
              uploads (out (snd r)) = S (uploads (out w)) /\
              Upload (Some deck) notes ∈ out (snd r)
          | _ => uploads (out (snd r)) = uploads (out w)
          end
      | _ => uploads (out (snd r)) = uploads (out w)
      end
  end.
Proof.
  destruct w as [st nm f ins g o]. cbv zeta. cbn [stdin state fs out].
  destruct ins as [| deck rest]; [split; reflexivity |].
  rewrite (upload_only_eq base_dir py_repr uploader). cbv zeta.
  rewrite (load_flashcards_eq base_dir). cbn [fs fst].
  destruct (f !! path) as [[[| ? | ? | ? | ? | d] |] |]; try (split_and!; reflexivity).
  destruct (Py.get "flashcards" d) as [| | | | notes |]; try (split_and!; reflexivity).
  match goal with |- context [report_upload py_repr ?r ?w0] =>
    destruct (report_upload_uploads py_repr r w0) as [Hc Hin];
    destruct (report_upload_frame r w0) as (Hs & Hf & Hi) end.
  rewrite Hs, Hf, Hi, Hc. split_and!; try reflexivity.
  apply Hin. apply list_elem_of_here.
Qed.

(** X17: when a generator call raises, the session ends with that
    exception; the state, the files (so the snapshot of the set before)
    and the unread lines stay as they were, and no upload is made then
    or later. *)
Theorem X17_generation_failure_ends_session files lines n e :
  let c := run' n (initial files lines) in
  fst c = AtGenerate ->
  generator (gen_calls (snd c)) (deck_name (state (snd c))) = Raise e ->
  forall m,
    let c' := run' (n + S m) (initial files lines) in
    fst c' = Crashed e /\
    state (snd c') = state (snd c) /\
    fs (snd c') = fs (snd c) /\
    stdin (snd c') = stdin (snd c) /\
    uploads (out (snd c')) = 0.
Proof.
  cbv zeta. intros Hp G m.
  destruct (session_invariants files lines n) as (_ & _ & Hu).
  rewrite (run_add base_dir py_repr generator uploader).
  destruct (run' n (initial files lines)) as [p [st nm f ins g o]].
  cbn [fst snd state gen_calls fs stdin out] in *. subst p.
  destruct Hu as [Hu | ([H | [e' H]] & _)]; [| discriminate H ..].
  assert (H : run' (S m) (AtGenerate, mkWorld st nm f ins g o)
              = (Crashed e,
                 mkWorld st nm f ins (S g)
                         (Generate (deck_name st)
                          :: Print "Generating flashcards from notes..." :: o))).
  { induction m as [| m IH].
    - cbn [run]. by rewrite step_generate_raise with (e := e).
    - change (run' (S (S m)) ?c) with (step' (run' (S m) c)). by rewrite IH. }
  rewrite H. cbn. split_and!; try reflexivity. exact Hu.
Qed.

(** X15: with [_upload_to_anki] reading the upload crew's raw text:
    [send_to_anki] on approved, non-empty cards makes the upload and then
    reports by what the text parses to.  Text that does not parse is
    reported as a failed upload that quotes the text; an object is a
    failure when its "error" is truthy and a completed upload otherwise,
    whatever else it holds; any other JSON value crashes the flow with an
    [AttributeError] after the upload was made. *)
Theorem X15_upload_report
        (json_loads : string -> py_result json)
        (kickoff : option string -> list json -> string) (w : world) c cs :
  approved (state w) = true ->
  flashcards (state w) = Some (c :: cs) ->
  let raw := kickoff (deck_name (state w)) (c :: cs) in
  let w2 := emit (Upload (deck_name (state w)) (c :: cs))
                 (emit (Print "Uploading flashcards to Anki...") w) in
  step base_dir py_repr generator (Raw._upload_to_anki json_loads kickoff) (AtSendToAnki, w)
  = match json_loads raw with
    | Raise _ =>
        (Finished,
         emit (Print ("Upload failed: Unexpected upload response: " +:+ raw)) w2)
    | Ret (JDict d) =>
        (Finished,
         emit (Print (if Py.truthy (Py.get "error" d)
                      then "Upload failed: " +:+ py_str py_repr (Py.get "error" d)
                      else "Upload completed.")) w2)
    | Ret v => (Crashed (Py.no_attribute v "get"), w2)
    end.
Proof.
  intros Hap Hfc. cbv zeta.
  unfold step, block, send_to_anki, bind, get_state. cbn [fst snd].
  rewrite Hap, Hfc. cbn [negb].
  unfold Flow._upload_to_anki, print, report_upload, bind, lift.
  cbn [fst snd].
  unfold Raw._upload_to_anki, Raw.upload_of_raw.
  destruct (json_loads (kickoff (deck_name (state w)) (c :: cs))) as [v | e].
  - destruct v; try reflexivity.
    cbn [get_of]. destruct (Py.truthy (Py.get "error" d)); reflexivity.
  - reflexivity.
Qed.

End FlowMore.

(** * The crews' raw output *)

Section RawFacts.

Import Raw.

Variable json_loads : string -> py_result json.

Lemma append_cons x (a b : string) : String x a +:+ b = String x (a +:+ b).
Proof. reflexivity. Qed.

Lemma append_assoc (a b c : string) : (a +:+ b) +:+ c = a +:+ (b +:+ c).
Proof.
  induction a as [| x a IH]; [reflexivity |]. rewrite !append_cons. by f_equal.
Qed.

Lemma length_append (a b : string) :
  String.length (a +:+ b) = String.length a + String.length b.
Proof.
  induction a as [| x a IH]; [reflexivity |].
  rewrite append_cons. cbn [String.length]. by rewrite IH.
Qed.

Lemma find_app c a b :
  find c a = None -> find c (a +:+ String c b) = Some (String.length a).
Proof.
  induction a as [| x a IH].
  - intros _. change ("" +:+ String c b) with (String c b).
    cbn [find]. by rewrite Ascii.eqb_refl.
  - rewrite append_cons. cbn [find String.length].
    destruct (Ascii.eqb x c); [discriminate |].
    destruct (find c a); [discriminate |]. intros _. by rewrite IH.
Qed.

Lemma rfind_none c s : rfind c s = None <-> find c s = None.
Proof.
  induction s as [| x s IH]; [done |]. cbn [find rfind].
  destruct (rfind c s), (find c s), (Ascii.eqb x c); cbn; try done;
    destruct IH as [IH1 IH2]; first [by specialize (IH1 eq_refl) | by specialize (IH2 eq_refl)].
Qed.

Lemma rfind_app c a b :
  rfind c b = None -> rfind c (a +:+ String c b) = Some (String.length a).
Proof.
  intros Hb. induction a as [| x a IH].
  - change ("" +:+ String c b) with (String c b).
    cbn [rfind]. by rewrite Hb, Ascii.eqb_refl.
  - rewrite append_cons. cbn [rfind String.length]. by rewrite IH.
Qed.

Lemma rfind_app_other c x a b :
  rfind c b = None -> Ascii.eqb x c = false ->
  rfind c (a +:+ String x b) = rfind c a.
Proof.
  intros Hb Hx. induction a as [| y a IH].
  - change ("" +:+ String x b) with (String x b).
    cbn [rfind]. by rewrite Hb, Hx.
  - rewrite append_cons. cbn [rfind]. by rewrite IH.
Qed.

Lemma rfind_lt c s j : rfind c s = Some j -> j < String.length s.
Proof.
  revert j. induction s as [| x s IH]; intros j; [discriminate |].
  cbn [rfind String.length].
  destruct (rfind c s) as [i |].
  - intros [= <-]. specialize (IH i eq_refl). lia.
  - destruct (Ascii.eqb x c); [intros [= <-]; lia | discriminate].
Qed.

Lemma substring_middle pre s post :
  substring (String.length pre) (String.length s) (pre +:+ s +:+ post) = s.
Proof.
  induction pre as [| x pre IH]; [| exact IH].
  change ("" +:+ s +:+ post) with (s +:+ post).
  cbn [String.length]. induction s as [| y s IHs].
  - destruct post; reflexivity.
  - rewrite append_cons. cbn [String.length substring]. by rewrite IHs.
Qed.

(** X18: when the crew's text has a "[" and, after the first one, a
    "]": if the whole text parses, that value alone decides (a list is
    returned, anything else is "not a JSON array", brackets inside it
    notwithstanding); if it does not, the text from the first "[" to the
    last "]", both included, is parsed instead and decides in the same
    way, its own parse error being passed on. *)
Theorem X18_bracket_fallback pre mid post :
  find "[" pre = None ->
  find "]" post = None ->
  let raw := pre +:+ String "[" (mid +:+ String "]" post) in
  flashcards_of_raw json_loads raw
  = match json_loads raw with
    | Ret v => as_list (Ret v)
    | Raise _ => as_list (json_loads (String "[" (mid +:+ "]")))
    end.
Proof.
  intros Hpre Hpost raw. unfold flashcards_of_raw.
  destruct (json_loads raw) as [v | e0]; [reflexivity |].
  assert (Hraw1 : raw = (pre +:+ String "[" mid) +:+ String "]" post).
  { unfold raw. by rewrite append_assoc, append_cons. }
  assert (Hraw2 : raw = pre +:+ String "[" (mid +:+ "]") +:+ post).
  { unfold raw. by rewrite append_cons, append_assoc. }
  assert (Hfind : find "[" raw = Some (String.length pre)) by (by apply find_app).
  assert (Hrfind : rfind "]" raw = Some (String.length pre + S (String.length mid))).
  { rewrite Hraw1, rfind_app by (by apply rfind_none).
    by rewrite length_append. }
  rewrite Hfind, Hrfind.
  assert (Hlt : Nat.ltb (String.length pre) (String.length pre + S (String.length mid)) = true)
    by (apply Nat.ltb_lt; lia).
  rewrite Hlt. unfold slice.
  replace (String.length pre + S (String.length mid) + 1 - String.length pre)
    with (String.length (String "[" (mid +:+ "]")))
    by (cbn [String.length]; rewrite length_append; cbn [String.length]; lia).
  rewrite Hraw2 at 1. rewrite substring_middle. reflexivity.
Qed.

(** X19: when the crew's text does not parse and has no "[", or no "]"
    after its first "[", generation fails with the "Failed to parse"
    [ValueError]. *)
Theorem X19_no_usable_brackets raw e0 :
  json_loads raw = Raise e0 ->
  find "[" raw = None \/
  (exists a b, raw = a +:+ String "[" b /\ find "[" a = None /\ find "]" b = None) ->
  flashcards_of_raw json_loads raw = Raise (ValueError parse_failed).
Proof.
  intros Hraw Hb. unfold flashcards_of_raw. rewrite Hraw.
  destruct Hb as [-> | (a & b & -> & Ha & Hb)]; [reflexivity |].
  rewrite find_app by exact Ha.
  rewrite rfind_app_other by (by apply rfind_none || reflexivity).
  destruct (rfind "]" a) as [j |] eqn:Hj; [| reflexivity].
  apply rfind_lt in Hj.
  assert (Hlt : Nat.ltb (String.length a) j = false) by (apply Nat.ltb_ge; lia).
  by rewrite Hlt.
Qed.

End RawFacts.

(** * The markdown reader *)

Section MarkdownFacts.

Import Markdown.

Variable v : volume.

Lemma read_all_ok files : forall results,
  Forall (fun p => exists e, read_one v p = inl e) files ->
  exists rs,
    read_all v files results = inl (results ++ rs)%list /\
    Forall2 (fun p e => read_one v p = inl e) files rs.
Proof.
  induction files as [| p files IH]; intros results H.
  - exists []. split; [by rewrite app_nil_r | constructor].
  - apply Forall_cons in H as [[e He] H]. cbn [read_all]. rewrite He.
    destruct (IH (results ++ [e])%list H) as (rs & Hr & Hrs).
    exists (e :: rs). split; [by rewrite Hr, <- app_assoc | by constructor].
Qed.

Lemma read_all_fails pre p post e : forall results,
  Forall (fun q => exists x, read_one v q = inl x) pre ->
  read_one v p = inr e ->
  read_all v (pre ++ p :: post)%list results = inr e.
Proof.
  induction pre as [| q pre IH]; intros results Hpre Hp; cbn [app read_all].
  - by rewrite Hp.
  - apply Forall_cons in Hpre as [[x Hx] Hpre]. rewrite Hx. by apply IH.
Qed.

(** What the tool puts in the entry of a file it could read. *)
Lemma read_one_entry p e :
  read_one v p = inl e ->
  exists content,
    e = entry p content /\
    (read_text v p = Text content \/
     (read_text v p = Undecodable /\ read_text_ignore v p = inl content)).
Proof.
  unfold read_one. destruct (read_text v p) as [s | | err] eqn:Hr.
  - intros [= <-]. exists s. split; [reflexivity | by left].
  - destruct (read_text_ignore v p) as [s | err]; [| discriminate].
    intros [= <-]. exists s. split; [reflexivity | by right].
  - discriminate.
Qed.


(** X21: the run is all or nothing: the first listed file that cannot be
    read (an [OSError] on reading it, or on reading it again after a
    decoding error) turns the whole result into that error, whatever was
    read before it and whatever follows it. *)
Theorem X21_one_unreadable_file_fails_the_run folder recursive pre p post e :
  Py.prefix "/" folder = true ->
  isdir v folder = true ->
  md_files v recursive folder = inl (pre ++ p :: post)%list ->
  Forall (fun q => exists x, read_one v q = inl x) pre ->
  read_text v p = ReadError e \/
  (read_text v p = Undecodable /\ read_text_ignore v p = inr e) ->
  _run v folder recursive = JDict [("error", JStr e)].
Proof.
  intros Habs Hdir Hfiles Hpre Hp.
  assert (Hone : read_one v p = inr e).
  { unfold read_one. destruct Hp as [-> | [-> ->]]; reflexivity. }
  unfold _run. rewrite Habs, Hdir, Hfiles. cbn [negb].
  by rewrite (read_all_fails pre p post e [] Hpre Hone).
Qed.

End MarkdownFacts.


(** ** Concrete runs of the properties above *)

Section MoreExamples.

Import Tool Flow Fixtures.

Lemma X1_witness :
  Forall2 (fun n b => is_invalid n = Ret b)
          [nested_front_only; mitosis; nested_front_only] [true; false; true] /\
  flagged 0 [true; false; true] <> [] /\
  _run repr true healthy "Biology" "Basic"
       (Some [nested_front_only; mitosis; nested_front_only]) url []
  = (Ret (error_doc "Invalid notes at indices: [0, 2]. Each needs Front and Back."), []).
Proof.
  assert (H2 : Forall2 (fun n b => is_invalid n = Ret b)
                       [nested_front_only; mitosis; nested_front_only]
                       [true; false; true]) by (repeat constructor).
  assert (Hne : flagged 0 [true; false; true] <> []) by discriminate.
  split; [exact H2 |]. split; [exact Hne |].
  exact (proj1 (X1_invalid_batch_report repr true healthy "Biology" "Basic" _ _ url []
                  H2 Hne)).
Defined.

Lemma X2_witness :
  Forall (fun n => Py.truthy (Py.get "fields" n) = false) [back_only; []] /\
  invalid_indices_from 0 [back_only; []] [] = Ret [].
Proof.
  assert (H : Forall (fun n => Py.truthy (Py.get "fields" n) = false) [back_only; []])
    by (repeat constructor).
  split; [exact H |].
  exact (X2_flat_batch_is_never_rejected [back_only; []] 0 [] H).
Defined.



Lemma X7_witness :
  Forall (fun m => exists b, is_invalid m = Ret b) [nested_front_only] /\
  (exists z, z <> 0%Z /\ Py.get "fields" numbered_fields = JInt z) /\
  _run repr true healthy "Biology" "Basic"
       (Some [nested_front_only; numbered_fields; mitosis]) url []
  = (Raise TypeError, []).
Proof.
  assert (Hpre : Forall (fun m => exists b, is_invalid m = Ret b) [nested_front_only]).
  { constructor; [by exists true | constructor]. }
  assert (Hn : exists z, z <> 0%Z /\ Py.get "fields" numbered_fields = JInt z).
  { exists 5%Z. split; [discriminate | reflexivity]. }
  split; [exact Hpre |]. split; [exact Hn |].
  exact (X7_unusable_fields_raise repr true healthy "Biology" "Basic"
           [nested_front_only] numbered_fields [mitosis] url [] Hpre (or_intror Hn)).
Defined.

Lemma X8_witness :
  _run repr true fieldless "Biology" "Basic" (Some [mitosis]) url []
  = (Ret (error_doc "Invalid response for model field names"),
     [createDeck_post url "Biology"; modelFieldNames_post url "Basic"]) /\
  ((exists s, s <> "" /\
              error_doc "Invalid response for model field names" = error_doc s) \/
   (exists r, error_doc "Invalid response for model field names" = JDict [("result", r)] /\
              [createDeck_post url "Biology"; modelFieldNames_post url "Basic"]
              = [createDeck_post url "Biology"; modelFieldNames_post url "Basic";
                 addNotes_post url "Biology" "Basic" (default [] (Some [mitosis]))])).
Proof.
  split; [reflexivity |].
  exact (X8_run_result_shape repr true fieldless "Biology" "Basic" (Some [mitosis]) url
           _ _ eq_refl).
Defined.

Lemma X9_witness :
  Forall has_front_back [mitosis] /\
  Forall (fun pn => exists d f,
                      pn = JDict d /\ Py.lookup "fields" d = Some f /\
                      Py.contains "Front" f = Ret true /\
                      Py.contains "Back" f = Ret true)
         (prepared_notes "Biology" "Basic" [mitosis]).
Proof.
  assert (H : Forall has_front_back [mitosis]) by (repeat constructor).
  split; [exact H |].
  exact (proj1 (X9_prepared_fields_agree "Biology" "Basic" [mitosis] H)).
Defined.

Lemma X10_witness :
  "Biology" <> "" /\
  run root repr generator uploader 4 (AtInit, fresh [""; ""; "Biology"; "y"])
  = (AtGenerate,
     mkWorld (mkState (Some "Biology") None false) (Some "Biology") ∅ ["y"] 0
             (Print "✓ Deck name set to: Biology"
              :: Input "Enter name of deck: " "Biology" :: reprompts 2 [])).
Proof.
  assert (H : "Biology" <> "") by discriminate.
  split; [exact H |].
  exact (X10_deck_name_prompt root repr generator uploader 2 "Biology" ["y"]
           AnkiState_default None ∅ 0 [] H).
Defined.


Lemma X15_witness :
  approved (state approved_cards) = true /\
  step root repr generator (Raw._upload_to_anki loads chatty) (AtSendToAnki, approved_cards)
  = (Finished,
     emit (Print "Upload failed: Unexpected upload response: All cards were uploaded.")
          (emit (Upload (Some "Biology") cards)
                (emit (Print "Uploading flashcards to Anki...") approved_cards))).
Proof.
  split; [reflexivity |].
  exact (X15_upload_report root repr generator loads chatty approved_cards _ _
           eq_refl eq_refl).
Defined.

Lemma X17_witness :
  fst (run root repr flaky_generator uploader 4 (initial ∅ ["Biology"; "n"; "y"]))
  = AtGenerate /\
  fst (run root repr flaky_generator uploader (4 + 3) (initial ∅ ["Biology"; "n"; "y"]))
  = Crashed (ValueError Raw.not_an_array) /\
  stdin (snd (run root repr flaky_generator uploader (4 + 3)
                  (initial ∅ ["Biology"; "n"; "y"])))
  = ["y"].
Proof.
  split; [reflexivity |].
  destruct (X17_generation_failure_ends_session
              root repr flaky_generator uploader ∅ ["Biology"; "n"; "y"] 4
              (ValueError Raw.not_an_array) eq_refl eq_refl 2)
    as (Hp & _ & _ & Hin & _).
  split; [exact Hp | exact Hin].
Defined.

Lemma X18_witness :
  Raw.find "[" "Here are your cards: " = None /\
  Raw.find "]" " Enjoy!" = None /\
  Raw.flashcards_of_raw loads "Here are your cards: [null] Enjoy!" = Ret [JNull].
Proof.
  split; [reflexivity |]. split; [reflexivity |].
  exact (X18_bracket_fallback loads "Here are your cards: " "null" " Enjoy!"
           eq_refl eq_refl).
Defined.

Lemma X19_witness :
  loads "] no cards [ today" = Raise (ValueError "Expecting value: line 1 column 1 (char 0)") /\
  Raw.flashcards_of_raw loads "] no cards [ today" = Raise (ValueError Raw.parse_failed).
Proof.
  split; [reflexivity |].
  apply (X19_no_usable_brackets loads "] no cards [ today" _ eq_refl).
  right. exists "] no cards ", " today". by split_and!.
Defined.


Lemma X21_witness :
  Markdown.read_text locked_volume "/notes/b.md"
  = Markdown.ReadError "[Errno 13] Permission denied: '/notes/b.md'" /\
  Markdown._run locked_volume "/notes" false
  = JDict [("error", JStr "[Errno 13] Permission denied: '/notes/b.md'")].
Proof.
  split; [reflexivity |].
  apply (X21_one_unreadable_file_fails_the_run
           locked_volume "/notes" false ["/notes/a.md"] "/notes/b.md" []);
    [reflexivity | reflexivity | reflexivity | | by left].
  constructor; [by eexists | constructor].
Defined.

End MoreExamples.
